(** * ReadTheDocsLoader: main-content extraction from rendered HTML pages

    Shallow embedding of
    [libs/langchain/langchain/document_loaders/readthedocs.py].

    The loader walks a directory of HTML files, parses each one with
    BeautifulSoup, locates the main-content element, optionally rejects
    link-heavy index pages, flattens the element to text and drops the
    empty lines.

    Modelling choices.
    - A Python [str] is a [string]; its characters are the code points
      below 256.  The newline character is [nl].
    - A parsed page is a [PageElement] tree with bs4's kinds of node: a
      [Tag], a plain [NavigableString], a [Comment], or a string of one
      of the other subclasses of [NavigableString] ([SpecialString]:
      the text of [script], [style] and [template] elements, CDATA
      sections, the doctype, ...).  The class of a string is decided by
      the parser and is data of the tree.  An attribute value is a
      string or, for a multi-valued attribute such as [class], the list
      of its tokens ([AttrValue]); again the parser decides which.
    - bs4 itself is a library the loader calls; the operations the loader
      uses ([descendants], [find], [find_all], [strings],
      [stripped_strings]) are modelled on the tree as bs4 4.9 and later
      define them: a required attribute value matches a list when it is
      one of the tokens (or the tokens joined by spaces) and matches a
      missing attribute when it is empty; [strings] yields only the
      strings of the classes its receiver is interested in.  Tags carry
      no namespace prefix, and the values of a selector dict are
      strings.
    - [len(a) / len(b)] is a float in Python.  It is modelled by the exact
      rational; the only comparison the code makes is against [0.5].
    - The parser, the directory walker and the file reader are the
      collaborators of the loader, gathered in the class [Collaborators].
      Code that touches them lives in the monad [IO], which carries the
      log of the files opened so far and may raise. *)

From Stdlib Require Import String Ascii List QArith Lia.
From stdpp Require Import base gmap strings list.
Import ListNotations.
Local Open Scope string_scope.
Local Open Scope list_scope.

(** ** Python strings *)

Module Py.

Definition nl : ascii := "010"%char.

(** The one-character string ["\n"]. *)
Definition NL : string := String nl "".

(** Truth value of a [str]: non-empty. *)
Definition truthy (s : string) : bool :=
  match s with
  | EmptyString => false
  | String _ _ => true
  end.

(** [str.isspace] on one character, for the code points below 256. *)
Definition isspace (c : ascii) : bool :=
  let n := nat_of_ascii c in
  (Nat.leb 9 n && Nat.leb n 13) || (Nat.leb 28 n && Nat.leb n 32)
  || Nat.eqb n 133 || Nat.eqb n 160.

Fixpoint lstrip (s : string) : string :=
  match s with
  | EmptyString => ""
  | String c s' => if isspace c then lstrip s' else s
  end.

Fixpoint rstrip (s : string) : string :=
  match s with
  | EmptyString => ""
  | String c s' =>
      match rstrip s' with
      | EmptyString => if isspace c then "" else String c ""
      | r => String c r
      end
  end.

(** [s.strip()] *)
Definition strip (s : string) : string := rstrip (lstrip s).

(** [s.split(sep)] for a one-character separator: never the empty
    list, and [""] splits to [[""]]. *)
Fixpoint split (sep : ascii) (s : string) : list string :=
  match s with
  | EmptyString => [""]
  | String c s' =>
      if Ascii.eqb c sep then "" :: split sep s'
      else match split sep s' with
           | [] => [String c ""]
           | seg :: segs => String c seg :: segs
           end
  end.

(** [sep.join(l)] *)
Definition join (sep : string) (l : list string) : string :=
  String.concat sep l.

(** [x in l] for a list of [str]. *)
Definition in_list (x : string) (l : list string) : bool :=
  existsb (String.eqb x) l.

(** [s] has the character [c] somewhere. *)
Fixpoint has_char (c : ascii) (s : string) : bool :=
  match s with
  | EmptyString => false
  | String d s' => Ascii.eqb d c || has_char c s'
  end.

(** [s.endswith(c)] for one character. *)
Fixpoint ends_with (c : ascii) (s : string) : bool :=
  match s with
  | EmptyString => false
  | String d EmptyString => Ascii.eqb d c
  | String _ s' => ends_with c s'
  end.

End Py.

(** ** The page tree and the bs4 operations the loader calls *)

Module bs4.

(** The value of an attribute in [Tag.attrs]: a string, or the list of
    tokens of a multi-valued attribute. *)
Inductive AttrValue : Type :=
| AttrStr (s : string)
| AttrList (l : list string).

(** The subclasses of [NavigableString] other than [Comment]. *)
Inductive StringClass : Type :=
| CData
| ProcessingInstruction
| XMLProcessingInstruction
| Declaration
| Doctype
| Stylesheet
| Script
| TemplateString
| RubyTextString
| RubyParenthesisString.

#[global] Instance StringClass_eq_dec : EqDecision StringClass.
Proof. solve_decision. Defined.

#[local] Unset Elimination Schemes.

Inductive PageElement : Type :=
| Tag (name : string) (attrs : gmap string AttrValue)
      (children : list PageElement)
| NavigableString (s : string)
| Comment (s : string)
| SpecialString (cls : StringClass) (s : string).

#[local] Set Elimination Schemes.

(** Induction on page trees: the children satisfy the predicate. *)

Section PageElement_ind.

Variable P : PageElement -> Prop.
Hypothesis P_tag : forall name attrs children,
  Forall P children -> P (Tag name attrs children).
Hypothesis P_string : forall s, P (NavigableString s).
Hypothesis P_comment : forall s, P (Comment s).
Hypothesis P_special : forall cls s, P (SpecialString cls s).

Fixpoint PageElement_ind (el : PageElement) : P el :=
  match el with
  | Tag name attrs children =>
      P_tag name attrs children
        ((fix all (l : list PageElement) : Forall P l :=
            match l with
            | [] => List.Forall_nil P
            | c :: l' => List.Forall_cons P c l' (PageElement_ind c) (all l')
            end) children)
  | NavigableString s => P_string s
  | Comment s => P_comment s
  | SpecialString cls s => P_special cls s
  end.

End PageElement_ind.

(** [el.descendants]: every node below [el], in document order: each
    child, followed by its own descendants. *)
Fixpoint descendants (el : PageElement) : list PageElement :=
  match el with
  | Tag _ _ children => flat_map (fun c => c :: descendants c) children
  | NavigableString _ | Comment _ | SpecialString _ _ => []
  end.

(** [SoupStrainer._matches(value, match_against)] for the value of an
    attribute ([None] when the tag does not have it) and a required
    string: a missing attribute matches a required value that is falsy;
    a string matches when it is equal; a list matches when one of its
    items does, or when the items joined by spaces do. *)
Definition value_matches (value : option AttrValue) (match_against : string)
    : bool :=
  match value with
  | None => negb (Py.truthy match_against)
  | Some (AttrStr s) => String.eqb s match_against
  | Some (AttrList l) =>
      existsb (fun item => String.eqb item match_against) l
      || String.eqb (Py.join " " l) match_against
  end.

(** The attribute loop of [SoupStrainer.search_tag]: every required
    pair matches the value the tag has under its key. *)
Definition attrs_match (required : gmap string string)
    (actual : gmap string AttrValue) : bool :=
  bool_decide
    (map_Forall (fun k v => value_matches (actual !! k) v = true) required).

Definition matches_tag (name : string) (attrs : gmap string string)
    (el : PageElement) : bool :=
  match el with
  | Tag n a _ => String.eqb n name && attrs_match attrs a
  | NavigableString _ | Comment _ | SpecialString _ _ => false
  end.

(** [soup.find(name, attrs)]: the first descendant that matches. *)
Definition find (name : string) (attrs : gmap string string)
    (soup : PageElement) : option PageElement :=
  head (List.filter (matches_tag name attrs) (descendants soup)).

(** [el.find_all(name)]: all the descendants named [name]. *)
Definition find_all (name : string) (el : PageElement)
    : list PageElement :=
  List.filter (matches_tag name ∅) (descendants el).

(** [HTMLTreeBuilder.DEFAULT_STRING_CONTAINERS]: the tags whose text the
    parser stores in a class of its own. *)
Definition string_containers : list (string * StringClass) :=
  [ ("rt", RubyTextString); ("rp", RubyParenthesisString);
    ("style", Stylesheet); ("script", Script);
    ("template", TemplateString) ].

(** The classes of string a tag is interested in: plain strings and
    CDATA sections, or the one class of a string container. *)
Inductive StringTypes : Type :=
| MainContent
| Only (cls : StringClass).

Fixpoint container_class (name : string)
    (table : list (string * StringClass)) : option StringClass :=
  match table with
  | [] => None
  | (n, cls) :: rest =>
      if String.eqb n name then Some cls else container_class name rest
  end.

(** [Tag.interesting_string_types], set when the tag is built. *)
Definition interesting_string_types (el : PageElement) : StringTypes :=
  match el with
  | Tag name _ _ =>
      match container_class name string_containers with
      | Some cls => Only cls
      | None => MainContent
      end
  | NavigableString _ | Comment _ | SpecialString _ _ => MainContent
  end.

(** The text of the node [d] when its class, exactly, is one of
    [types]: the type test of [Tag._all_strings]. *)
Definition string_of_type (types : StringTypes) (d : PageElement)
    : list string :=
  match d, types with
  | NavigableString s, MainContent => [s]
  | SpecialString CData s, MainContent => [s]
  | SpecialString cls s, Only cls' =>
      if bool_decide (cls = cls') then [s] else []
  | _, _ => []
  end.

(** [el.strings] for a tag [el]: the text of the descendants that are
    strings of a class [el] is interested in; comments never are. *)
Definition strings (el : PageElement) : list string :=
  flat_map (string_of_type (interesting_string_types el)) (descendants el).

(** [el.stripped_strings]: each string stripped, the empty ones
    dropped. *)
Definition stripped_strings (el : PageElement) : list string :=
  List.filter Py.truthy (map Py.strip (strings el)).

End bs4.

Import Py bs4.

(** ** The loader *)

(** What the loader raises. *)
Inductive exn : Type :=
| ImportError (msg : string)
| ValueError (msg : string)
| ParserError (data : string)
| ReadError (p : string).

(** Computations that may open files and may raise.  The state is the
    log of the files opened so far, oldest first. *)
Definition IO (A : Type) : Type := list string -> (exn + A) * list string.

Definition ret {A} (a : A) : IO A := fun log => (inr a, log).

Definition raise {A} (e : exn) : IO A := fun log => (inl e, log).

Definition bind {A B} (m : IO A) (k : A -> IO B) : IO B :=
  fun log =>
    match m log with
    | (inl e, log') => (inl e, log')
    | (inr a, log') => k a log'
    end.

Notation "x <- m ;; k" := (bind m (fun x => k))
  (at level 100, m at next level, right associativity).

(** [for x in l: acc = body(acc, x)], stopping at the first exception. *)
Fixpoint for_each {A B} (l : list A) (body : B -> A -> IO B) (acc : B)
    : IO B :=
  match l with
  | [] => ret acc
  | x :: rest => acc' <- body acc x ;; for_each rest body acc'
  end.

(** The collaborators: the HTML parser ([None] when it raises), the
    recursive directory walker, the directory test and the file reader
    ([None] when opening or decoding fails). *)
Class Collaborators : Type := {
  bs4_importable : bool;
  BeautifulSoup : string -> gmap string string -> option PageElement;
  rglob : string -> string -> list string;
  is_dir : string -> bool;
  read_text : string -> option string -> option string -> option string
}.

Record ReadTheDocsLoader : Type := {
  file_path : string;
  encoding : option string;
  errors : option string;
  custom_html_tag : option (string * gmap string string);
  patterns : list string;
  bs_kwargs : gmap string string;
  exclude_index_pages : bool
}.

Record Document : Type := {
  page_content : string;
  metadata : gmap string string
}.

(** [_get_link_ratio], lines 82-94. *)
Definition _get_link_ratio (section : PageElement) : Q :=
  let links := find_all "a" section in
  let total_text := join "" (stripped_strings section) in
  if Nat.eqb (String.length total_text) 0 then 0
  else
    let link_text :=
      join "" (map strip (List.filter truthy (flat_map strings links))) in
    inject_Z (Z.of_nat (String.length link_text))
    / inject_Z (Z.of_nat (String.length total_text)).

(** Lines 101-128. *)
Definition elements_to_skip : list string :=
  [ "script"; "noscript"; "canvas"; "meta"; "svg"; "map"; "area"; "audio";
    "source"; "track"; "video"; "embed"; "object"; "param"; "picture";
    "iframe"; "frame"; "frameset"; "noframes"; "applet"; "form"; "button";
    "select"; "base"; "style"; "img" ].

(** Lines 130-145. *)
Definition newline_elements : list string :=
  [ "p"; "div"; "ul"; "ol"; "li"; "h1"; "h2"; "h3"; "h4"; "h5"; "h6";
    "pre"; "table"; "tr" ].

(** [process_element], lines 147-159.  A string node has no [name]:
    [getattr(el, "name", None)] is [None], which is in neither list.
    A string of any class but [Comment] is an instance of
    [NavigableString] and is returned as it is. *)
Fixpoint process_element (el : PageElement) : string :=
  match el with
  | Comment _ => ""
  | NavigableString s | SpecialString _ s => s
  | Tag tag_name _ children =>
      if in_list tag_name elements_to_skip then ""
      else if String.eqb tag_name "br" then NL
      else if in_list tag_name newline_elements then
        join "" (map process_element children) +:+ NL
      else join "" (map process_element children)
  end.

(** [_get_clean_text], lines 96-162. *)
Definition _get_clean_text (element : PageElement) : string :=
  process_element element.

(** Lines 170-173: the default tags, in the order of the source. *)
Definition default_html_tags : list (string * gmap string string) :=
  [ ("div", {[ "role" := "main" ]}); ("main", {[ "id" := "main-content" ]}) ].

(** The loop of lines 181-185: [text] is assigned at every turn, and the
    loop breaks at the first turn where it is not [None]. *)
Fixpoint search_tags (soup : PageElement)
    (tags : list (string * gmap string string))
    (text : option PageElement) : option PageElement :=
  match tags with
  | [] => text
  | (tag, attrs) :: rest =>
      let text := find tag attrs soup in
      match text with
      | Some _ => text
      | None => search_tags soup rest text
      end
  end.

(** Lines 169-185 of [_clean_data]: the main-content element of the
    page, if any. *)
Definition locate_main (self : ReadTheDocsLoader) (soup : PageElement)
    : option PageElement :=
  let html_tags := default_html_tags in
  let html_tags :=
    match custom_html_tag self with
    | Some custom => html_tags ++ [custom]
    | None => html_tags
    end in
  search_tags soup (rev html_tags) None.

(** Line 195: ["\n".join([t for t in text.split("\n") if t])]. *)
Definition trim_empty_lines (text : string) : string :=
  join NL (List.filter truthy (split nl text)).

(** Lines 169-195 of [_clean_data], on the tree [soup] that the parser
    returned on line 167. *)
Definition _clean_data_soup (self : ReadTheDocsLoader) (soup : PageElement)
    : string :=
  let text := locate_main self soup in
  let text :=
    match text with
    | Some el =>
        if negb (exclude_index_pages self
                 && Qle_bool (1 # 2) (_get_link_ratio el))
        then _get_clean_text el
        else ""
    | None => ""
    end in
  trim_empty_lines text.

Section WithCollaborators.

Context `{Collaborators}.

Definition probe_markup : string :=
  "<html><body>Parser builder library test.</body></html>".

(** [__init__], lines 12-67. *)
Definition __init__ (path : string) (encoding errors : option string)
    (custom_html_tag : option (string * gmap string string))
    (patterns : list string) (exclude_index_pages : bool)
    (kwargs : gmap string string) : IO ReadTheDocsLoader :=
  if negb bs4_importable then
    raise (ImportError
      ("Could not import python packages. "
       +:+ "Please install it with `pip install beautifulsoup4`. "))
  else
    match BeautifulSoup probe_markup kwargs with
    | None => raise (ValueError "Parsing kwargs do not appear valid")
    | Some _ =>
        ret {| file_path := path;
               encoding := encoding;
               errors := errors;
               custom_html_tag := custom_html_tag;
               patterns := patterns;
               bs_kwargs := kwargs;
               exclude_index_pages := exclude_index_pages |}
    end.

(** The default [patterns] of [__init__], line 18. *)
Definition default_patterns : list string := [ "*.htm"; "*.html" ].

(** [open(p, encoding=..., errors=...)] followed by [f.read()],
    lines 76-77: the file is logged as opened, then read. *)
Definition open_and_read (p : string) (encoding errors : option string)
    : IO string :=
  fun log =>
    match read_text p encoding errors with
    | Some data => (inr data, log ++ [p])
    | None => (inl (ReadError p), log ++ [p])
    end.

(** [_clean_data], lines 164-195. *)
Definition _clean_data (self : ReadTheDocsLoader) (data : string)
    : IO string :=
  match BeautifulSoup data (bs_kwargs self) with
  | None => raise (ParserError data)
  | Some soup => ret (_clean_data_soup self soup)
  end.

(** The body of the inner loop of [load], lines 74-79. *)
Definition load_file (self : ReadTheDocsLoader) (docs : list Document)
    (p : string) : IO (list Document) :=
  if is_dir p then ret docs
  else
    text <- (data <- open_and_read p (encoding self) (errors self) ;;
             _clean_data self data) ;;
    let metadata := {[ "source" := p ]} in
    ret (docs ++ [ {| page_content := text; metadata := metadata |} ]).

(** [load], lines 69-80. *)
Definition load (self : ReadTheDocsLoader) : IO (list Document) :=
  let docs := [] in
  for_each (patterns self)
    (fun docs file_pattern =>
       for_each (rglob (file_path self) file_pattern) (load_file self) docs)
    docs.

(** The files of one pattern that [load] does not skip. *)
Definition matched_files (self : ReadTheDocsLoader) (file_pattern : string)
    : list string :=
  List.filter (fun p => negb (is_dir p)) (rglob (file_path self) file_pattern).

(** The document of the file [p], when it can be read and parsed. *)
Definition document_of (self : ReadTheDocsLoader) (p : string)
    : option Document :=
  match read_text p (encoding self) (errors self) with
  | Some data =>
      match BeautifulSoup data (bs_kwargs self) with
      | Some soup =>
          Some {| page_content := _clean_data_soup self soup;
                  metadata := {[ "source" := p ]} |}
      | None => None
      end
  | None => None
  end.

(** [load] emitted the document [d] for the file [p]. *)
Definition emitted (self : ReadTheDocsLoader) (d : Document) (p : string)
    : Prop :=
  document_of self p = Some d /\ metadata d = {[ "source" := p ]}.

End WithCollaborators.

(** ** Notions used to state the properties *)

(** The selector order as the specification words it: the custom
    selector if there is one, then [main#main-content], then
    [div[role=main]]. *)
Definition selector_priority (custom : option (string * gmap string string))
    : list (string * gmap string string) :=
  match custom with
  | Some c => [c]
  | None => []
  end ++ [ ("main", {[ "id" := "main-content" ]});
           ("div", {[ "role" := "main" ]}) ].

(** What it means for the value of an attribute ([None] when the tag
    does not have it) to match a required value [v]: a missing
    attribute matches the empty value only, a string matches when it is
    [v], and a list of tokens matches when [v] is one of the tokens or
    the tokens joined by single spaces. *)
Definition ValueMatches (value : option AttrValue) (v : string) : Prop :=
  match value with
  | None => v = ""
  | Some (AttrStr s) => s = v
  | Some (AttrList l) => In v l \/ join " " l = v
  end.

(** The first selector of [sels] that finds something decides. *)
Fixpoint first_match (soup : PageElement)
    (sels : list (string * gmap string string)) : option PageElement :=
  match sels with
  | [] => None
  | (tag, attrs) :: rest =>
      match find tag attrs soup with
      | Some el => Some el
      | None => first_match soup rest
      end
  end.



(** Total length of the stripped strings of a list. *)
Definition stripped_length (l : list string) : nat :=
  list_sum (map (fun s => String.length (strip s)) l).

(** The text of a node itself, when it is a string and not a comment. *)
Definition own_string (d : PageElement) : list string :=
  match d with
  | NavigableString s | SpecialString _ s => [s]
  | Tag _ _ _ | Comment _ => []
  end.

(** The text of every string of [el] that is not a comment, [el]
    included, in document order. *)
Definition text_nodes (el : PageElement) : list string :=
  own_string el ++ flat_map own_string (descendants el).

(** The strings below [el] that a tag interested in the main content
    yields: plain strings and CDATA sections. *)
Definition main_strings (el : PageElement) : list string :=
  flat_map (string_of_type MainContent) (descendants el).


(** The descendants of a list of siblings, in document order. *)
Definition forest (children : list PageElement) : list PageElement :=
  flat_map (fun c => c :: descendants c) children.

(** ** Pages and loaders used as examples *)

(** A parsed document with [main] as the only child of its body. *)
Definition page_of (main : PageElement) : PageElement :=
  Tag "[document]" ∅ [ Tag "html" ∅ [ Tag "head" ∅ []; Tag "body" ∅ [main] ] ].

(** [<div role="main"><p>Hello</p><p>World</p></div>] *)
Definition hello_world_main : PageElement :=
  Tag "div" {[ "role" := AttrStr "main" ]}
    [ Tag "p" ∅ [NavigableString "Hello"];
      Tag "p" ∅ [NavigableString "World"] ].

(** [<div role="main"><a href="x">All text</a></div>] *)
Definition all_text_main : PageElement :=
  Tag "div" {[ "role" := AttrStr "main" ]}
    [ Tag "a" {[ "href" := AttrStr "x" ]} [NavigableString "All text"] ].


(** [<div role="main"><p>Intro<span><script>alert(1)</script></span></p>
    <!-- note --> <a href="x">more</a></div>] *)
Definition scripted_main : PageElement :=
  Tag "div" {[ "role" := AttrStr "main" ]}
    [ Tag "p" ∅
        [ NavigableString "Intro";
          Tag "span" ∅
            [ Tag "script" ∅ [SpecialString Script "alert(1)"] ] ];
      Comment " note ";
      NavigableString " ";
      Tag "a" {[ "href" := AttrStr "x" ]} [NavigableString "more"] ].

(** A page with all three kinds of main element, the lowest priority
    first in document order. *)
Definition three_mains : PageElement :=
  Tag "[document]" ∅
    [ Tag "html" ∅
        [ Tag "body" ∅
            [ Tag "div" {[ "role" := AttrStr "main" ]} [NavigableString "division"];
              Tag "main" {[ "id" := AttrStr "main-content" ]}
                [NavigableString "main"];
              Tag "section" {[ "class" := AttrList ["main"; "wide"] ]}
                [NavigableString "section"] ] ] ].


(** [<div role="main"><a href="x">ab</a>c<script>dddd</script>
    <template>eeee</template></div>], as [html.parser] and [lxml]
    build it. *)
Definition script_and_template_main : PageElement :=
  Tag "div" {[ "role" := AttrStr "main" ]}
    [ Tag "a" {[ "href" := AttrStr "x" ]} [NavigableString "ab"];
      NavigableString "c";
      Tag "script" ∅ [SpecialString Script "dddd"];
      Tag "template" ∅ [SpecialString TemplateString "eeee"] ].

Definition example_loader (custom : option (string * gmap string string))
    (pats : list string) (exclude : bool) : ReadTheDocsLoader :=
  {| file_path := "docs";
     encoding := None;
     errors := None;
     custom_html_tag := custom;
     patterns := pats;
     bs_kwargs := ∅;
     exclude_index_pages := exclude |}.

(** A small world: the directory [docs] holds [index.html], [api.htm]
    and a directory named [old.html]; the parser accepts every option
    but [features=bogus]. *)
Definition example_world : Collaborators := {|
  bs4_importable := true;
  BeautifulSoup := fun data kwargs =>
    if bool_decide (kwargs !! "features" = Some "bogus") then None
    else if String.eqb data "hello" then Some (page_of hello_world_main)
    else if String.eqb data "links" then Some (page_of all_text_main)
    else Some (Tag "[document]" ∅ [NavigableString data]);
  rglob := fun root pattern =>
    if negb (String.eqb root "docs") then []
    else if String.eqb pattern "*.html" then
      [ "docs/index.html"; "docs/old.html" ]
    else if String.eqb pattern "*.htm" then [ "docs/api.htm" ]
    else if String.eqb pattern "index*" then [ "docs/index.html" ]
    else [];
  is_dir := fun p => String.eqb p "docs/old.html";
  read_text := fun p _ _ =>
    if String.eqb p "docs/index.html" then Some "hello"
    else if String.eqb p "docs/api.htm" then Some "links"
    else None
|}.

(** ** Notions used to state further properties *)

(** The lines that line 195 keeps: the non-empty segments of the text. *)
Definition kept_lines (text : string) : list string :=
  List.filter truthy (split nl text).

(** Every character of [s] is a newline. *)
Fixpoint only_newlines (s : string) : bool :=
  match s with
  | EmptyString => true
  | String c s' => Ascii.eqb c nl && only_newlines s'
  end.

(** The tag names that [process_element] treats as transparent. *)
Definition transparent (name : string) : bool :=
  negb (in_list name elements_to_skip) && negb (String.eqb name "br")
  && negb (in_list name newline_elements).

(** [el] is made of transparent tags, strings and comments only. *)
Fixpoint inline_only (el : PageElement) : bool :=
  match el with
  | Tag name _ children => transparent name && forallb inline_only children
  | NavigableString _ | Comment _ | SpecialString _ _ => true
  end.

(** Every string of [el], itself included, that is not a comment is a
    plain string or a CDATA section. *)
Definition main_content_only (el : PageElement) : bool :=
  forallb
    (fun d => match d with
              | SpecialString cls _ => bool_decide (cls = CData)
              | Tag _ _ _ | NavigableString _ | Comment _ => true
              end)
    (el :: descendants el).

(** [el] with every attribute removed, at any depth. *)
Fixpoint drop_attrs (el : PageElement) : PageElement :=
  match el with
  | Tag name _ children => Tag name ∅ (map drop_attrs children)
  | NavigableString _ | Comment _ | SpecialString _ _ => el
  end.

(** [el] with every string stripped of the whitespace around it. *)
Fixpoint strip_strings (el : PageElement) : PageElement :=
  match el with
  | Tag name attrs children => Tag name attrs (map strip_strings children)
  | NavigableString s => NavigableString (strip s)
  | SpecialString cls s => SpecialString cls (strip s)
  | Comment _ => el
  end.

(** The two lengths that [_get_link_ratio] divides, lines 84-94. *)
Definition total_length (section : PageElement) : nat :=
  String.length (join "" (stripped_strings section)).

Definition link_length (section : PageElement) : nat :=
  String.length
    (join "" (map strip
       (List.filter truthy (flat_map strings (find_all "a" section))))).

(** What [load] raises at a file it cannot turn into a document. *)
Definition load_error `{Collaborators} (self : ReadTheDocsLoader)
    (p : string) : exn :=
  match read_text p (encoding self) (errors self) with
  | Some data => ParserError data
  | None => ReadError p
  end.

(** A world where the second of three pages cannot be read. *)
Definition broken_world : Collaborators := {|
  bs4_importable := true;
  BeautifulSoup := fun data _ => Some (page_of hello_world_main);
  rglob := fun _ pattern =>
    if String.eqb pattern "*.html" then
      [ "docs/a.html"; "docs/sub"; "docs/b.html"; "docs/c.html" ]
    else [];
  is_dir := fun p => String.eqb p "docs/sub";
  read_text := fun p _ _ =>
    if String.eqb p "docs/b.html" then None else Some "hello"
|}.

(** * Properties *)

(** ** Python strings *)

#[local] Arguments String.append _ _ : simpl nomatch.
#[local] Arguments join _ _ : simpl never.

Lemma truthy_eqb (s : string) : truthy s = negb (String.eqb s "").
Proof. destruct s; reflexivity. Qed.

Lemma truthy_true (s : string) : truthy s = true <-> s <> "".
Proof. destruct s; simpl; split; congruence. Qed.

Lemma append_empty_r (s : string) : s +:+ "" = s.
Proof. induction s as [|c s IH]; simpl; [reflexivity | now rewrite IH]. Qed.

Lemma append_assoc (s t u : string) : (s +:+ t) +:+ u = s +:+ (t +:+ u).
Proof. induction s as [|c s IH]; simpl; [reflexivity | now rewrite IH]. Qed.

Lemma length_append (s t : string) :
  String.length (s +:+ t) = String.length s + String.length t.
Proof. induction s as [|c s IH]; simpl; [reflexivity | now rewrite IH]. Qed.

Lemma join_cons_cons (sep x y : string) (l : list string) :
  join sep (x :: y :: l) = x +:+ sep +:+ join sep (y :: l).
Proof. reflexivity. Qed.

Lemma join_empty_cons (x : string) (l : list string) :
  join "" (x :: l) = x +:+ join "" l.
Proof.
  destruct l as [|y l]; [symmetry; apply append_empty_r | reflexivity].
Qed.

Lemma length_join_empty (l : list string) :
  String.length (join "" l) = list_sum (map String.length l).
Proof.
  induction l as [|x l IH]; [reflexivity|].
  rewrite join_empty_cons, length_append, IH. reflexivity.
Qed.

Lemma split_not_nil (sep : ascii) (s : string) : split sep s <> [].
Proof.
  induction s as [|c s IH]; simpl; [discriminate|].
  destruct (Ascii.eqb c sep); [discriminate|].
  destruct (split sep s); discriminate.
Qed.

Lemma join_split (sep : ascii) (s : string) :
  join (String sep "") (split sep s) = s.
Proof.
  induction s as [|c s IH]; [reflexivity|]. simpl.
  destruct (Ascii.eqb c sep) eqn:E.
  - apply Ascii.eqb_eq in E. subst c.
    destruct (split sep s) as [|seg segs] eqn:Es.
    + now apply split_not_nil in Es.
    + rewrite join_cons_cons, IH. reflexivity.
  - destruct (split sep s) as [|seg segs] eqn:Es.
    + now apply split_not_nil in Es.
    + rewrite <- IH. destruct segs as [|seg' segs]; reflexivity.
Qed.

Lemma split_no_sep (sep : ascii) (s : string) :
  Forall (fun seg => has_char sep seg = false) (split sep s).
Proof.
  induction s as [|c s IH]; simpl.
  - constructor; [reflexivity | constructor].
  - destruct (Ascii.eqb c sep) eqn:E.
    + constructor; [reflexivity | exact IH].
    + destruct (split sep s) as [|seg segs].
      * constructor; [simpl; now rewrite E | constructor].
      * inversion IH; subst. constructor; [simpl; now rewrite E | assumption].
Qed.

Lemma split_sep_free (sep : ascii) (s : string) :
  has_char sep s = false -> split sep s = [s].
Proof.
  induction s as [|c s IH]; simpl; [reflexivity|].
  intros Hc. apply orb_false_iff in Hc as [E Hs].
  rewrite E, (IH Hs). reflexivity.
Qed.

Lemma split_app_sep (sep : ascii) (s rest : string) :
  has_char sep s = false ->
  split sep (s +:+ String sep rest) = s :: split sep rest.
Proof.
  induction s as [|c s IH]; simpl.
  - intros _. now rewrite Ascii.eqb_refl.
  - intros Hc. apply orb_false_iff in Hc as [E Hs].
    rewrite E, (IH Hs). reflexivity.
Qed.

Lemma split_join (sep : ascii) (l : list string) :
  l <> [] ->
  Forall (fun seg => has_char sep seg = false) l ->
  split sep (join (String sep "") l) = l.
Proof.
  induction l as [|x l IH]; [congruence|].
  intros _ Hall. inversion Hall as [|? ? Hx Hl]; subst.
  destruct l as [|y l].
  - simpl. now apply split_sep_free.
  - rewrite join_cons_cons. simpl append.
    rewrite (split_app_sep _ _ _ Hx), IH; [reflexivity | discriminate | assumption].
Qed.

Lemma ends_with_sep_free (c : ascii) (s : string) :
  has_char c s = false -> ends_with c s = false.
Proof.
  induction s as [|d s IH]; simpl; [reflexivity|].
  intros Hc. apply orb_false_iff in Hc as [E Hs].
  destruct s; [exact E | now apply IH].
Qed.

Lemma ends_with_app (c : ascii) (s t : string) :
  t <> "" -> ends_with c (s +:+ t) = ends_with c t.
Proof.
  intros Ht. induction s as [|d s IH]; [reflexivity|].
  simpl append. simpl ends_with.
  destruct (s +:+ t) eqn:E; [|exact IH].
  destruct s; simpl in E; [congruence | discriminate].
Qed.

Lemma join_not_empty (sep x : string) (l : list string) :
  x <> "" -> join sep (x :: l) <> "".
Proof.
  intros Hx. destruct l as [|y l]; [exact Hx|].
  rewrite join_cons_cons. destruct x; [congruence | discriminate].
Qed.

Lemma ends_with_join (c : ascii) (l : list string) :
  Forall (fun seg => has_char c seg = false) l ->
  Forall (fun seg => seg <> "") l ->
  ends_with c (join (String c "") l) = false.
Proof.
  induction l as [|x l IH]; [reflexivity|].
  intros Hc Hne.
  inversion Hc as [|? ? Hx Hl]; inversion Hne as [|? ? Hx' Hl']; subst.
  destruct l as [|y l].
  - simpl. now apply ends_with_sep_free.
  - rewrite join_cons_cons, ends_with_app by (simpl; discriminate).
    specialize (IH Hl Hl').
    assert (Hj : join (String c "") (y :: l) <> "")
      by (apply join_not_empty; now inversion Hl').
    simpl append.
    destruct (join (String c "") (y :: l)) eqn:E; [congruence|].
    exact IH.
Qed.

(** ** Empty-line trimming *)

Lemma kept_lines_sep_free (text : string) :
  Forall (fun seg => has_char nl seg = false)
         (List.filter truthy (split nl text)).
Proof.
  apply List.Forall_forall. intros seg Hin. apply filter_In in Hin as [Hin _].
  pose proof (split_no_sep nl text) as Hall.
  rewrite List.Forall_forall in Hall. apply Hall. exact Hin.
Qed.

Lemma kept_lines_not_empty (text : string) :
  Forall (fun seg => seg <> "") (List.filter truthy (split nl text)).
Proof.
  apply List.Forall_forall. intros seg Hin. apply filter_In in Hin as [_ Ht].
  now apply truthy_true.
Qed.

Lemma filter_truthy_id (l : list string) :
  Forall (fun seg => seg <> "") l -> List.filter truthy l = l.
Proof.
  induction 1 as [|x l Hx _ IH]; [reflexivity|]. simpl.
  apply truthy_true in Hx. now rewrite Hx, IH.
Qed.

Lemma split_trim_empty_lines (text : string) :
  List.filter truthy (split nl text) <> [] ->
  split nl (trim_empty_lines text) = List.filter truthy (split nl text).
Proof.
  intros Hne. unfold trim_empty_lines, NL.
  apply split_join; [exact Hne | apply kept_lines_sep_free].
Qed.

(** ** Searching the tree *)

Lemma value_matches_spec (value : option AttrValue) (v : string) :
  value_matches value v = true <-> ValueMatches value v.
Proof.
  destruct value as [[s|l]|]; simpl.
  - apply String.eqb_eq.
  - rewrite orb_true_iff, existsb_exists, String.eqb_eq. split.
    + intros [(item & Hin & Heq) | Hj]; [left | now right].
      apply String.eqb_eq in Heq. now subst item.
    + intros [Hin | Hj]; [left | now right].
      exists v. split; [exact Hin | apply String.eqb_refl].
  - destruct v; simpl; split; congruence.
Qed.

Lemma attrs_match_spec (required : gmap string string)
    (actual : gmap string AttrValue) :
  attrs_match required actual = true <->
  forall k v, required !! k = Some v -> ValueMatches (actual !! k) v.
Proof.
  unfold attrs_match. rewrite bool_decide_eq_true. unfold map_Forall.
  split; intros Hall k v Hk; apply value_matches_spec; now apply Hall.
Qed.

Lemma matches_tag_spec (name : string) (attrs : gmap string string)
    (el : PageElement) :
  matches_tag name attrs el = true <->
  exists actual children,
    el = Tag name actual children /\
    forall k v, attrs !! k = Some v -> ValueMatches (actual !! k) v.
Proof.
  split.
  - destruct el as [n a cs| | |]; simpl; try discriminate.
    intros Hm. apply andb_true_iff in Hm as [Hn Ha].
    apply String.eqb_eq in Hn. subst n.
    exists a, cs. split; [reflexivity | now apply attrs_match_spec].
  - intros (a & cs & -> & Ha). simpl.
    rewrite String.eqb_refl. now apply attrs_match_spec.
Qed.

Lemma head_filter_Some {A} (f : A -> bool) (l : list A) (x : A) :
  head (List.filter f l) = Some x <->
  exists before after,
    l = before ++ x :: after /\ f x = true /\
    Forall (fun d => f d = false) before.
Proof.
  induction l as [|y l IH]; simpl.
  - split; [discriminate|].
    intros (before & after & Hl & _). now destruct before.
  - destruct (f y) eqn:Ey; simpl.
    + split.
      * intros [= ->]. exists [], l. repeat split; [exact Ey | constructor].
      * intros (before & after & Hl & Hx & Hb).
        destruct before as [|b before]; simpl in Hl.
        -- now injection Hl as -> _.
        -- injection Hl as -> _. inversion Hb; congruence.
    + rewrite IH. split.
      * intros (before & after & -> & Hx & Hb).
        exists (y :: before), after. repeat split; [exact Hx|].
        now constructor.
      * intros (before & after & Hl & Hx & Hb).
        destruct before as [|b before]; simpl in Hl.
        -- injection Hl as -> _. congruence.
        -- injection Hl as -> ->. inversion Hb; subst.
           exists before, after. repeat split; assumption.
Qed.

Lemma head_filter_None {A} (f : A -> bool) (l : list A) :
  head (List.filter f l) = None <-> Forall (fun d => f d = false) l.
Proof.
  induction l as [|y l IH]; simpl.
  - split; [constructor | reflexivity].
  - destruct (f y) eqn:Ey; simpl.
    + split; [discriminate | intros Hall; inversion Hall; congruence].
    + rewrite IH. split; [now constructor | intros Hall; now inversion Hall].
Qed.

(** The loop of [_clean_data] is the first match along its list. *)
Lemma search_tags_first_match (soup : PageElement)
    (tags : list (string * gmap string string)) (text : option PageElement) :
  search_tags soup tags text =
  match tags with
  | [] => text
  | _ :: _ => first_match soup tags
  end.
Proof.
  revert text. induction tags as [|[tag attrs] rest IH]; intros text.
  - reflexivity.
  - simpl. destruct (find tag attrs soup) as [el|] eqn:Ef; [reflexivity|].
    rewrite IH. destruct rest; reflexivity.
Qed.

Lemma locate_main_priority (self : ReadTheDocsLoader) (soup : PageElement) :
  locate_main self soup =
  first_match soup (selector_priority (custom_html_tag self)).
Proof.
  unfold locate_main, selector_priority.
  rewrite search_tags_first_match.
  destruct (custom_html_tag self) as [c|]; reflexivity.
Qed.

Lemma first_match_None (soup : PageElement)
    (sels : list (string * gmap string string)) :
  first_match soup sels = None <->
  Forall (fun sel => find (fst sel) (snd sel) soup = None) sels.
Proof.
  induction sels as [|[tag attrs] rest IH]; simpl.
  - split; [constructor | reflexivity].
  - destruct (find tag attrs soup) eqn:Ef.
    + split; [discriminate | intros Hall; inversion Hall; simpl in *; congruence].
    + rewrite IH. split; [now constructor | intros Hall; now inversion Hall].
Qed.

Lemma first_match_Some (soup : PageElement)
    (sels : list (string * gmap string string)) (el : PageElement) :
  first_match soup sels = Some el <->
  exists earlier sel later,
    sels = earlier ++ sel :: later /\
    find (fst sel) (snd sel) soup = Some el /\
    Forall (fun s => find (fst s) (snd s) soup = None) earlier.
Proof.
  induction sels as [|[tag attrs] rest IH]; simpl.
  - split; [discriminate|].
    intros (earlier & sel & later & Hs & _). now destruct earlier.
  - destruct (find tag attrs soup) as [e|] eqn:Ef.
    + split.
      * intros [= ->]. exists [], (tag, attrs), rest.
        repeat split; [exact Ef | constructor].
      * intros (earlier & sel & later & Hs & Hf & He).
        destruct earlier as [|s0 earlier]; simpl in Hs.
        -- injection Hs as <- _. simpl in Hf. congruence.
        -- injection Hs as <- _. inversion He; simpl in *; congruence.
    + rewrite IH. split.
      * intros (earlier & sel & later & -> & Hf & He).
        exists ((tag, attrs) :: earlier), sel, later.
        repeat split; [exact Hf | now constructor].
      * intros (earlier & sel & later & Hs & Hf & He).
        destruct earlier as [|s0 earlier]; simpl in Hs.
        -- injection Hs as <- _. simpl in Hf. congruence.
        -- injection Hs as <- ->. inversion He; subst.
           exists earlier, sel, later. repeat split; assumption.
Qed.

Lemma clean_data_soup_not_located (self : ReadTheDocsLoader)
    (soup : PageElement) :
  locate_main self soup = None -> _clean_data_soup self soup = "".
Proof. unfold _clean_data_soup. now intros ->. Qed.

(** ** The recursive extractor *)

Lemma in_list_In (x : string) (l : list string) :
  in_list x l = true <-> In x l.
Proof.
  unfold in_list. rewrite existsb_exists. split.
  - intros (y & Hy & Heq). apply String.eqb_eq in Heq. now subst y.
  - intros Hin. exists x. split; [exact Hin | apply String.eqb_refl].
Qed.

Lemma process_element_Tag (tag_name : string) (attrs : gmap string AttrValue)
    (children : list PageElement) :
  process_element (Tag tag_name attrs children) =
  if in_list tag_name elements_to_skip then ""
  else if String.eqb tag_name "br" then NL
  else if in_list tag_name newline_elements then
    join "" (map process_element children) +:+ NL
  else join "" (map process_element children).
Proof. reflexivity. Qed.

Lemma process_element_skip (name : string) (attrs : gmap string AttrValue)
    (children : list PageElement) :
  in_list name elements_to_skip = true ->
  process_element (Tag name attrs children) = "".
Proof. intros Hs. now rewrite process_element_Tag, Hs. Qed.

Lemma process_element_block (name : string) (attrs : gmap string AttrValue)
    (children : list PageElement) :
  in_list name newline_elements = true ->
  process_element (Tag name attrs children) =
  join "" (map process_element children) +:+ NL.
Proof.
  intros Hb. apply in_list_In in Hb.
  repeat (destruct Hb as [<- | Hb]; [reflexivity|]). destruct Hb.
Qed.

Lemma process_element_transparent (name : string)
    (attrs : gmap string AttrValue) (children : list PageElement) :
  in_list name elements_to_skip = false ->
  in_list name newline_elements = false ->
  name <> "br" ->
  process_element (Tag name attrs children) =
  join "" (map process_element children).
Proof.
  intros Hs Hb Hbr. rewrite process_element_Tag, Hs, Hb.
  apply String.eqb_neq in Hbr. now rewrite Hbr.
Qed.

Lemma skip_block_disjoint (name : string) :
  ~ (In name elements_to_skip /\ In name newline_elements).
Proof.
  intros [Hs Hb]. apply in_list_In in Hb.
  repeat (destruct Hs as [<- | Hs]; [discriminate Hb|]). destruct Hs.
Qed.



(** ** The link ratio *)


Lemma length_total_text (l : list string) :
  String.length (join "" (List.filter truthy (map strip l))) =
  stripped_length l.
Proof.
  rewrite length_join_empty. unfold stripped_length.
  induction l as [|s l IH]; [reflexivity|]. simpl.
  destruct (strip s) eqn:Es; simpl; now rewrite IH.
Qed.

Lemma length_link_text (l : list string) :
  String.length (join "" (map strip (List.filter truthy l))) =
  stripped_length l.
Proof.
  rewrite length_join_empty. unfold stripped_length.
  induction l as [|s l IH]; [reflexivity|]. simpl.
  destruct s; simpl; now rewrite IH.
Qed.

Lemma forest_cons (c : PageElement) (cs : list PageElement) :
  forest (c :: cs) = c :: descendants c ++ forest cs.
Proof. reflexivity. Qed.


Lemma flat_map_forest_cons {B} (f : PageElement -> list B) (c : PageElement)
    (cs : list PageElement) :
  flat_map f (forest (c :: cs)) =
  f c ++ flat_map f (descendants c) ++ flat_map f (forest cs).
Proof.
  rewrite forest_cons. simpl. now rewrite flat_map_app.
Qed.


Lemma main_content_strings (el : PageElement) :
  interesting_string_types el = MainContent -> strings el = main_strings el.
Proof. unfold strings, main_strings. now intros ->. Qed.












(** ** The page pipeline *)




(** ** Construction and loading *)

Section LoaderIO.

Context `{Collaborators}.

Lemma bind_raise {A B} (m : IO A) (k : A -> IO B) (e : exn)
    (log log' : list string) :
  m log = (inl e, log') -> bind m k log = (inl e, log').
Proof. unfold bind. now intros ->. Qed.

Lemma bind_ret {A B} (m : IO A) (k : A -> IO B) (a : A)
    (log log' : list string) :
  m log = (inr a, log') -> bind m k log = k a log'.
Proof. unfold bind. now intros ->. Qed.

Lemma init_import_fails (path : string) (enc err : option string)
    (custom : option (string * gmap string string)) (pats : list string)
    (excl : bool) (kwargs : gmap string string) (log : list string) :
  bs4_importable = false ->
  exists msg,
    __init__ path enc err custom pats excl kwargs log
    = (inl (ImportError msg), log).
Proof. intros Hi. unfold __init__. rewrite Hi. simpl. now eexists. Qed.

Lemma init_probe_fails (path : string) (enc err : option string)
    (custom : option (string * gmap string string)) (pats : list string)
    (excl : bool) (kwargs : gmap string string) (log : list string) :
  bs4_importable = true ->
  BeautifulSoup probe_markup kwargs = None ->
  __init__ path enc err custom pats excl kwargs log
  = (inl (ValueError "Parsing kwargs do not appear valid"), log).
Proof. intros Hi Hp. unfold __init__. now rewrite Hi, Hp. Qed.

Lemma init_succeeds_inv (path : string) (enc err : option string)
    (custom : option (string * gmap string string)) (pats : list string)
    (excl : bool) (kwargs : gmap string string) (log log' : list string)
    (self : ReadTheDocsLoader) :
  __init__ path enc err custom pats excl kwargs log = (inr self, log') ->
  bs4_importable = true /\
  is_Some (BeautifulSoup probe_markup kwargs) /\
  log' = log /\ bs_kwargs self = kwargs.
Proof.
  unfold __init__. destruct bs4_importable; simpl; [|discriminate].
  destruct (BeautifulSoup probe_markup kwargs) as [soup|]; [|discriminate].
  unfold ret. intros [= <- <-]. repeat split. now exists soup.
Qed.

Lemma for_each_cons {A B} (x : A) (l : list A) (body : B -> A -> IO B)
    (acc : B) :
  for_each (x :: l) body acc
  = bind (body acc x) (fun acc' => for_each l body acc').
Proof. reflexivity. Qed.

Lemma load_file_dir (self : ReadTheDocsLoader) (docs : list Document)
    (p : string) (log : list string) :
  is_dir p = true -> load_file self docs p log = (inr docs, log).
Proof. intros Hd. unfold load_file. now rewrite Hd. Qed.

Lemma load_file_ok (self : ReadTheDocsLoader) (docs : list Document)
    (p : string) (log : list string) (d : Document) :
  is_dir p = false ->
  document_of self p = Some d ->
  load_file self docs p log = (inr (docs ++ [d]), log ++ [p]).
Proof.
  intros Hd Hdoc. unfold load_file, document_of in *. rewrite Hd.
  unfold bind, open_and_read, _clean_data.
  destruct (read_text p (encoding self) (errors self)) as [data|];
    [|discriminate].
  destruct (BeautifulSoup data (bs_kwargs self)) as [soup|]; [|discriminate].
  injection Hdoc as <-. reflexivity.
Qed.

Lemma document_of_source (self : ReadTheDocsLoader) (p : string)
    (d : Document) :
  document_of self p = Some d -> metadata d = {[ "source" := p ]}.
Proof.
  unfold document_of.
  destruct (read_text p (encoding self) (errors self)); [|discriminate].
  destruct (BeautifulSoup _ _); [|discriminate].
  now intros [= <-].
Qed.

Lemma for_each_load_file (self : ReadTheDocsLoader) (files : list string) :
  forall (docs : list Document) (log : list string),
  Forall (fun p => is_Some (document_of self p))
         (List.filter (fun p => negb (is_dir p)) files) ->
  exists new,
    for_each files (load_file self) docs log
    = (inr (docs ++ new),
       log ++ List.filter (fun p => negb (is_dir p)) files) /\
    Forall2 (emitted self) new
            (List.filter (fun p => negb (is_dir p)) files).
Proof.
  induction files as [|p files IH]; intros docs log Hall.
  - exists []. simpl. rewrite !app_nil_r. split; [reflexivity | constructor].
  - rewrite for_each_cons. simpl List.filter in *.
    destruct (is_dir p) eqn:Hd; simpl negb in *; cbv iota in *.
    + destruct (IH docs log Hall) as (new & Hrun & Hnew).
      exists new. split; [|exact Hnew].
      rewrite (bind_ret (load_file self docs p) _ docs log log)
        by (now apply load_file_dir).
      exact Hrun.
    + inversion Hall as [|? ? [d Hdoc] Hrest]; subst.
      destruct (IH (docs ++ [d]) (log ++ [p]) Hrest) as (new & Hrun & Hnew).
      exists (d :: new). split.
      * rewrite (bind_ret (load_file self docs p) _ (docs ++ [d]) log
                   (log ++ [p])) by (now apply load_file_ok).
        rewrite Hrun, <- !app_assoc. reflexivity.
      * constructor; [|exact Hnew].
        split; [exact Hdoc | now apply (document_of_source self)].
Qed.

Lemma for_each_pattern (self : ReadTheDocsLoader) (pats : list string) :
  forall (docs : list Document) (log : list string),
  Forall (fun p => is_Some (document_of self p))
         (flat_map (matched_files self) pats) ->
  exists new,
    for_each pats
      (fun docs file_pattern =>
         for_each (rglob (file_path self) file_pattern) (load_file self) docs)
      docs log
    = (inr (docs ++ new), log ++ flat_map (matched_files self) pats) /\
    Forall2 (emitted self) new (flat_map (matched_files self) pats).
Proof.
  induction pats as [|pat pats IH]; intros docs log Hall.
  - exists []. simpl. rewrite !app_nil_r. split; [reflexivity | constructor].
  - simpl in Hall. apply Forall_app in Hall as [Hpat Hrest].
    destruct (for_each_load_file self _ docs log Hpat)
      as (new1 & Hrun1 & Hnew1).
    destruct (IH (docs ++ new1) (log ++ matched_files self pat) Hrest)
      as (new2 & Hrun2 & Hnew2).
    exists (new1 ++ new2). split.
    + rewrite for_each_cons.
      rewrite (bind_ret _ _ (docs ++ new1) log
                 (log ++ matched_files self pat)) by exact Hrun1.
      rewrite Hrun2. simpl flat_map. rewrite <- !app_assoc. reflexivity.
    + simpl. now apply Forall2_app.
Qed.

End LoaderIO.

Lemma count_occ_flat_map {A B} (dec : forall x y : B, {x = y} + {x <> y})
    (f : A -> list B) (l : list A) (x : B) :
  count_occ dec (flat_map f l) x
  = list_sum (map (fun a => count_occ dec (f a) x) l).
Proof.
  induction l as [|a l IH]; [reflexivity|].
  simpl. now rewrite count_occ_app, IH.
Qed.

(** * The claims *)

(** ** Main-content locator *)

Example custom_selector_first :
  locate_main
    (example_loader (Some ("section", {[ "class" := "main" ]})) [] false)
    three_mains
  = Some (Tag "section" {[ "class" := AttrList ["main"; "wide"] ]}
            [NavigableString "section"]).
Proof. vm_compute. reflexivity. Qed.

Example main_content_before_role_main :
  locate_main (example_loader None [] false) three_mains
  = Some (Tag "main" {[ "id" := AttrStr "main-content" ]}
            [NavigableString "main"]).
Proof. vm_compute. reflexivity. Qed.

(** C1.  The loop of [_clean_data] tries the selectors in the order
    custom selector (when there is one), [main] with [id=main-content],
    [div] with [role=main], and the first selector that finds something
    decides.  One selector is one [find]: the first node, in the
    depth-first document order of the descendants (each child followed
    by its own descendants), that is a tag of the required name whose
    attributes match every required pair.  A pair matches as bs4 has
    it: a string-valued attribute when it is the required value, a
    multi-valued one such as [class] when the required value is one of
    its tokens or all of them joined by spaces, a missing one when the
    required value is empty.  When no selector finds anything the
    page's text is the empty string. *)
Theorem C1_selector_priority (self : ReadTheDocsLoader) (soup : PageElement) :
  (forall c, selector_priority (Some c)
     = [ c; ("main", {[ "id" := "main-content" ]});
         ("div", {[ "role" := "main" ]}) ]) /\
  selector_priority None
    = [ ("main", {[ "id" := "main-content" ]});
        ("div", {[ "role" := "main" ]}) ] /\
  locate_main self soup
    = first_match soup (selector_priority (custom_html_tag self)) /\
  (forall sels el,
     first_match soup sels = Some el <->
     exists earlier sel later,
       sels = earlier ++ sel :: later /\
       find (fst sel) (snd sel) soup = Some el /\
       Forall (fun s => find (fst s) (snd s) soup = None) earlier) /\
  (forall name attrs children,
     descendants (Tag name attrs children)
     = flat_map (fun c => c :: descendants c) children) /\
  (forall tag attrs el,
     find tag attrs soup = Some el <->
     exists before after,
       descendants soup = before ++ el :: after /\
       matches_tag tag attrs el = true /\
       Forall (fun d => matches_tag tag attrs d = false) before) /\
  (forall tag attrs el,
     matches_tag tag attrs el = true <->
     exists actual children,
       el = Tag tag actual children /\
       forall k v, attrs !! k = Some v -> ValueMatches (actual !! k) v) /\
  (forall value v,
     ValueMatches value v <->
     match value with
     | None => v = ""
     | Some (AttrStr s) => s = v
     | Some (AttrList tokens) => In v tokens \/ join " " tokens = v
     end) /\
  (Forall (fun sel => find (fst sel) (snd sel) soup = None)
          (selector_priority (custom_html_tag self)) ->
   _clean_data_soup self soup = "").
Proof.
  split; [reflexivity|]. split; [reflexivity|].
  split; [apply locate_main_priority|].
  split; [intros sels el; apply first_match_Some|].
  split; [reflexivity|].
  split; [intros tag attrs el; apply head_filter_Some|].
  split; [intros tag attrs el; apply matches_tag_spec|].
  split; [intros [[s|l]|] v; reflexivity|].
  intros Hnone. apply clean_data_soup_not_located.
  rewrite locate_main_priority. now apply first_match_None.
Qed.

Lemma C1_selector_priority_witness :
  _clean_data_soup (example_loader None [] false)
    (page_of (Tag "article" ∅ [NavigableString "text"])) = "" /\
  locate_main
    (example_loader (Some ("section", {[ "class" := "main" ]})) [] false)
    three_mains
  = Some (Tag "section" {[ "class" := AttrList ["main"; "wide"] ]}
            [NavigableString "section"]).
Proof.
  split.
  - apply (C1_selector_priority (example_loader None [] false)
             (page_of (Tag "article" ∅ [NavigableString "text"]))).
    repeat constructor.
  - rewrite (proj1 (proj2 (proj2 (C1_selector_priority
               (example_loader
                  (Some ("section", {[ "class" := "main" ]})) [] false)
               three_mains)))).
    vm_compute. reflexivity.
Defined.

(** ** Recursive extractor *)

(** C2.  A tag of the block set contributes the concatenation of what its
    children contribute, followed by one newline; a [br] tag contributes
    one newline whatever its children; and a page whose main element is
    [<div role="main"><p>Hello</p><p>World</p></div>] comes out of
    extraction and normalisation as ["Hello\nWorld"]. *)
Theorem C2_block_and_line_break (self : ReadTheDocsLoader)
    (soup : PageElement)
    (Hloc : locate_main self soup = Some hello_world_main) :
  Forall (fun name => forall attrs children,
            process_element (Tag name attrs children)
            = join "" (map process_element children) +:+ NL)
         newline_elements /\
  (forall attrs children, process_element (Tag "br" attrs children) = NL) /\
  _get_clean_text hello_world_main
    = "Hello" +:+ NL +:+ "World" +:+ NL +:+ NL /\
  _clean_data_soup self soup = "Hello" +:+ NL +:+ "World".
Proof.
  split.
  { apply List.Forall_forall. intros name Hin attrs children.
    apply process_element_block. now apply in_list_In. }
  split; [reflexivity|]. split; [reflexivity|].
  unfold _clean_data_soup. rewrite Hloc.
  destruct (exclude_index_pages self); vm_compute; reflexivity.
Qed.

Lemma C2_block_and_line_break_witness :
  _clean_data_soup (example_loader None default_patterns true)
    (page_of hello_world_main) = "Hello" +:+ NL +:+ "World".
Proof.
  apply (C2_block_and_line_break
           (example_loader None default_patterns true)
           (page_of hello_world_main)).
  vm_compute. reflexivity.
Defined.

Example script_at_depth_is_dropped :
  _get_clean_text scripted_main
  = "Intro" +:+ NL +:+ " more" +:+ NL.
Proof. vm_compute. reflexivity. Qed.



(** ** Link ratio and index pages *)


(** The strings that count are those bs4 yields: the text of [script]
    and [template] elements and comments are left out of both lengths. *)
Example link_ratio_leaves_out_script_and_template :
  stripped_strings script_and_template_main = ["ab"; "c"] /\
  (_get_link_ratio script_and_template_main == 2 # 3)%Q /\
  _clean_data_soup (example_loader None default_patterns true)
    (page_of script_and_template_main) = "" /\
  _clean_data_soup (example_loader None default_patterns false)
    (page_of script_and_template_main) = "abceeee" /\
  stripped_strings scripted_main = ["Intro"; "more"] /\
  (_get_link_ratio scripted_main == 4 # 9)%Q.
Proof. repeat split; vm_compute; reflexivity. Qed.






(** An index page at the threshold: half of the text is link text. *)
Example ratio_one_half_is_rejected :
  let main :=
    Tag "div" {[ "role" := AttrStr "main" ]}
      [ Tag "a" {[ "href" := AttrStr "x" ]} [NavigableString "ab"];
        NavigableString "cd" ] in
  (_get_link_ratio main == 1 # 2)%Q /\
  _clean_data_soup (example_loader None default_patterns true) (page_of main)
  = "" /\
  _clean_data_soup (example_loader None default_patterns false) (page_of main)
  = "abcd".
Proof. cbv zeta. repeat split; vm_compute; reflexivity. Qed.

(** ** Normalisation *)

(** C6.  Normalisation splits the text at the newline characters (the
    segments have no newline and joined by newlines give the text back),
    keeps exactly the segments that are not the empty string, in order,
    whitespace-only segments included, and joins them with one newline:
    the lines of the result are the kept segments, and the result does
    not end with a newline. *)
Theorem C6_normalization (text : string) :
  let segments := split nl text in
  let kept := List.filter (fun t => negb (String.eqb t "")) segments in
  join NL segments = text /\
  Forall (fun seg => has_char nl seg = false) segments /\
  (forall seg, In seg kept <-> In seg segments /\ seg <> "") /\
  trim_empty_lines text = join NL kept /\
  (kept <> [] -> split nl (trim_empty_lines text) = kept) /\
  (kept = [] -> trim_empty_lines text = "") /\
  ends_with nl (trim_empty_lines text) = false.
Proof.
  cbv zeta.
  assert (Hkept : List.filter (fun t => negb (String.eqb t "")) (split nl text)
                  = List.filter truthy (split nl text)).
  { apply filter_ext. intros s. now rewrite truthy_eqb. }
  rewrite Hkept.
  split; [apply join_split|]. split; [apply split_no_sep|].
  split.
  { intros seg. rewrite filter_In, truthy_true. reflexivity. }
  split; [reflexivity|].
  split; [apply split_trim_empty_lines|].
  split; [unfold trim_empty_lines; now intros ->|].
  unfold trim_empty_lines, NL.
  apply ends_with_join; [apply kept_lines_sep_free | apply kept_lines_not_empty].
Qed.

Lemma C6_normalization_witness :
  split nl (trim_empty_lines (" " +:+ NL +:+ NL +:+ "x" +:+ NL))
  = [" "; "x"].
Proof.
  refine (proj1 (proj2 (proj2 (proj2 (proj2
            (C6_normalization (" " +:+ NL +:+ NL +:+ "x" +:+ NL)))))) _).
  vm_compute. discriminate.
Defined.

(** C7.  Normalising a normalised text changes nothing. *)
Theorem C7_normalization_idempotent (text : string) :
  trim_empty_lines (trim_empty_lines text) = trim_empty_lines text.
Proof.
  destruct (List.filter truthy (split nl text)) as [|x l] eqn:E.
  - unfold trim_empty_lines at 2 3. rewrite E. reflexivity.
  - unfold trim_empty_lines at 1.
    rewrite split_trim_empty_lines by (rewrite E; discriminate).
    rewrite filter_truthy_id by apply kept_lines_not_empty.
    reflexivity.
Qed.

(** ** Skip list, block list and transparent tags *)

(** C8, as stated, fails: [br] is in neither list and is not
    transparent; it contributes a newline and its children are not
    visited. *)
Lemma C8_br_is_not_transparent :
  in_list "br" elements_to_skip = false /\
  in_list "br" newline_elements = false /\
  process_element (Tag "br" ∅ [NavigableString "x"])
  <> join "" (map process_element [NavigableString "x"]).
Proof. repeat split. vm_compute. discriminate. Qed.

(** C8, amended.  No name is in both the skip list and the block list,
    and a tag whose name is in neither list and is not [br] is
    transparent: it contributes the concatenation of what its children
    contribute and nothing else. *)
Theorem C8_disjoint_lists_and_transparent_tags (name : string)
    (Hskip : in_list name elements_to_skip = false)
    (Hblock : in_list name newline_elements = false)
    (Hbr : name <> "br") :
  (forall n, ~ (In n elements_to_skip /\ In n newline_elements)) /\
  (forall attrs children,
     process_element (Tag name attrs children)
     = join "" (map process_element children)).
Proof.
  split; [apply skip_block_disjoint|].
  intros attrs children. now apply process_element_transparent.
Qed.

Lemma C8_disjoint_lists_and_transparent_tags_witness :
  process_element
    (Tag "span" ∅ [NavigableString "a"; Tag "em" ∅ [NavigableString "b"]])
  = "ab".
Proof.
  refine (eq_trans
    (proj2 (C8_disjoint_lists_and_transparent_tags "span" _ _ _) ∅
       [NavigableString "a"; Tag "em" ∅ [NavigableString "b"]]) _).
  - reflexivity.
  - reflexivity.
  - discriminate.
  - reflexivity.
Defined.

(** ** Construction *)

(** C9.  When the probe parse of [__init__] raises, which is how the
    parser answers options it does not support, construction raises the
    [ValueError] of line 59 and opens no file, and no later step, [load]
    included, runs: the log of opened files is as it was.  Conversely a
    construction that returns a loader had a probe parse that
    succeeded, and it opened no file either. *)
Theorem C9_construction_validates_parser `{Collaborators}
    (path : string) (enc err : option string)
    (custom : option (string * gmap string string)) (pats : list string)
    (excl : bool) (kwargs : gmap string string) (log : list string) :
  (bs4_importable = true ->
   BeautifulSoup probe_markup kwargs = None ->
   __init__ path enc err custom pats excl kwargs log
   = (inl (ValueError "Parsing kwargs do not appear valid"), log)) /\
  (BeautifulSoup probe_markup kwargs = None ->
   exists e,
     __init__ path enc err custom pats excl kwargs log = (inl e, log) /\
     (self <- __init__ path enc err custom pats excl kwargs ;; load self) log
     = (inl e, log)) /\
  (forall self log',
     __init__ path enc err custom pats excl kwargs log = (inr self, log') ->
     is_Some (BeautifulSoup probe_markup kwargs) /\ log' = log).
Proof.
  split; [apply init_probe_fails|]. split.
  - intros Hprobe. destruct bs4_importable eqn:Hi.
    + exists (ValueError "Parsing kwargs do not appear valid").
      assert (Hinit := init_probe_fails path enc err custom pats excl kwargs
                         log Hi Hprobe).
      split; [exact Hinit | now apply bind_raise].
    + destruct (init_import_fails path enc err custom pats excl kwargs log Hi)
        as (msg & Hinit).
      exists (ImportError msg). split; [exact Hinit | now apply bind_raise].
  - intros self log' Hinit.
    apply init_succeeds_inv in Hinit as (_ & Hsome & Hlog & _). now split.
Qed.

Lemma C9_construction_validates_parser_witness :
  @__init__ example_world "docs" None None None default_patterns false
    {[ "features" := "bogus" ]} []
  = (inl (ValueError "Parsing kwargs do not appear valid"), []).
Proof.
  apply (@C9_construction_validates_parser example_world);
    vm_compute; reflexivity.
Defined.

Example construction_with_valid_options :
  exists self,
    @__init__ example_world "docs" None None None default_patterns false
      {[ "features" := "html.parser" ]} []
    = (inr self, []).
Proof. eexists. vm_compute. reflexivity. Qed.

(** ** Loading *)

(** C10.  When every file that [load] opens can be read and parsed,
    [load] returns one document per pair of a configured pattern and a
    file the walker yields for it that is not a directory: the
    documents follow the patterns in order, and within a pattern the
    walker's order; each carries the path of its file as its [source].
    A file is emitted as many times as the patterns match it, so a file
    matched by two patterns gives two documents. *)
Theorem C10_one_document_per_pattern_and_file `{Collaborators}
    (self : ReadTheDocsLoader) (log : list string) :
  let files := flat_map (matched_files self) (patterns self) in
  Forall (fun p => is_Some (document_of self p)) files ->
  exists docs,
    load self log = (inr docs, log ++ files) /\
    Forall2 (fun d p =>
               document_of self p = Some d /\
               metadata d = {[ "source" := p ]}) docs files /\
    length docs
    = list_sum (map (fun pat => length (matched_files self pat))
                    (patterns self)) /\
    forall p,
      count_occ string_dec files p
      = list_sum (map (fun pat => count_occ string_dec
                                    (matched_files self pat) p)
                      (patterns self)).
Proof.
  cbv zeta. intros Hall.
  destruct (for_each_pattern self (patterns self) [] log Hall)
    as (docs & Hrun & Hdocs).
  exists docs. split; [exact Hrun|]. split; [exact Hdocs|]. split.
  - rewrite (Forall2_length _ _ _ Hdocs), length_flat_map. reflexivity.
  - intros p. apply count_occ_flat_map.
Qed.

Lemma C10_one_document_per_pattern_and_file_witness :
  exists d,
    @load example_world (example_loader None ["*.html"; "index*"] false) []
    = (inr [d; d], ["docs/index.html"; "docs/index.html"]) /\
    page_content d = "Hello" +:+ NL +:+ "World" /\
    metadata d = {[ "source" := "docs/index.html" ]}.
Proof.
  destruct (@C10_one_document_per_pattern_and_file example_world
              (example_loader None ["*.html"; "index*"] false) [])
    as (docs & Hload & Hdocs & _).
  - repeat constructor; vm_compute; eexists; reflexivity.
  - vm_compute in Hload. injection Hload as <-.
    eexists. split; [reflexivity|]. split; vm_compute; reflexivity.
Defined.

(** * Further properties of the code *)

(** ** Normalisation, line by line *)

Lemma join_empty_app (l1 l2 : list string) :
  join "" (l1 ++ l2) = join "" l1 +:+ join "" l2.
Proof.
  induction l1 as [|x l1 IH]; [reflexivity|].
  change ((x :: l1) ++ l2) with (x :: (l1 ++ l2)).
  now rewrite !join_empty_cons, IH, append_assoc.
Qed.

Lemma split_app_newline (sep : ascii) (a b : string) :
  split sep (a +:+ String sep b) = split sep a ++ split sep b.
Proof.
  induction a as [|c a IH]; simpl.
  - now rewrite Ascii.eqb_refl.
  - rewrite IH. destruct (Ascii.eqb c sep); [reflexivity|].
    destruct (split sep a) as [|seg segs] eqn:Ea; [|reflexivity].
    now apply split_not_nil in Ea.
Qed.

Lemma trim_kept_lines (text : string) :
  trim_empty_lines text = join NL (kept_lines text).
Proof. reflexivity. Qed.

Lemma kept_lines_app (a b : string) :
  kept_lines (a +:+ NL +:+ b) = kept_lines a ++ kept_lines b.
Proof.
  unfold kept_lines. change (NL +:+ b) with (String nl b).
  now rewrite split_app_newline, List.filter_app.
Qed.

Lemma kept_lines_newline (b : string) :
  kept_lines (NL +:+ b) = kept_lines b.
Proof. apply (kept_lines_app "" b). Qed.

Lemma kept_lines_line (s : string) :
  s <> "" -> has_char nl s = false -> kept_lines s = [s].
Proof.
  intros Hne Hfree. unfold kept_lines. rewrite (split_sep_free _ _ Hfree).
  simpl. apply truthy_true in Hne. now rewrite Hne.
Qed.

Lemma kept_lines_trim (text : string) :
  kept_lines (trim_empty_lines text) = kept_lines text.
Proof.
  destruct (kept_lines text) as [|x l] eqn:E.
  - rewrite trim_kept_lines, E. reflexivity.
  - unfold kept_lines in *.
    rewrite split_trim_empty_lines by (rewrite E; discriminate).
    rewrite filter_truthy_id by apply kept_lines_not_empty.
    exact E.
Qed.

Lemma kept_lines_nil_iff (s : string) :
  kept_lines s = [] <-> only_newlines s = true.
Proof.
  unfold kept_lines. induction s as [|c s IH]; simpl.
  - split; reflexivity.
  - destruct (Ascii.eqb c nl); simpl.
    + exact IH.
    + split; [|discriminate].
      destruct (split nl s); simpl; discriminate.
Qed.

Lemma length_join_newline (l : list string) :
  l <> [] ->
  S (String.length (join NL l))
  = list_sum (map (fun s => S (String.length s)) l).
Proof.
  induction l as [|x l IH]; [congruence|]. intros _.
  destruct l as [|y l].
  - change (join NL [x]) with x. simpl. lia.
  - rewrite join_cons_cons, !length_append.
    change (list_sum (map (fun s => S (String.length s)) (x :: y :: l)))
      with (S (String.length x)
            + list_sum (map (fun s => S (String.length s)) (y :: l))).
    rewrite <- IH by discriminate. simpl. lia.
Qed.

Lemma list_sum_filter_le {A} (f : A -> bool) (g : A -> nat) (l : list A) :
  list_sum (map g (List.filter f l)) <= list_sum (map g l).
Proof.
  induction l as [|x l IH]; [reflexivity|]. simpl.
  destruct (f x); simpl; lia.
Qed.

(** X11.  Normalisation works line by line: the kept lines of two texts
    joined by a newline are the kept lines of the first followed by
    those of the second, so normalising the two parts first changes
    nothing. *)
Theorem X11_normalization_piecewise (a b : string) :
  kept_lines (a +:+ NL +:+ b) = kept_lines a ++ kept_lines b /\
  trim_empty_lines (a +:+ NL +:+ b)
  = trim_empty_lines (trim_empty_lines a +:+ NL +:+ trim_empty_lines b).
Proof.
  split; [apply kept_lines_app|].
  now rewrite !trim_kept_lines, !kept_lines_app, <- !trim_kept_lines,
    !kept_lines_trim.
Qed.

(** X12.  The normalised text is empty exactly when the text has no
    character other than newlines. *)
Theorem X12_normalization_empty_iff (text : string) :
  trim_empty_lines text = "" <-> only_newlines text = true.
Proof.
  rewrite <- kept_lines_nil_iff, trim_kept_lines. split.
  - destruct (kept_lines text) as [|x l] eqn:E; [reflexivity|].
    intros Hj. exfalso. revert Hj. apply join_not_empty.
    pose proof (kept_lines_not_empty text) as Hne.
    unfold kept_lines in E. rewrite E in Hne. now inversion Hne.
  - now intros ->.
Qed.

Lemma X12_normalization_empty_iff_witness :
  trim_empty_lines (NL +:+ NL +:+ NL) = "".
Proof.
  apply (proj2 (X12_normalization_empty_iff (NL +:+ NL +:+ NL))).
  reflexivity.
Defined.

(** X13.  Normalisation never makes the text longer. *)
Theorem X13_normalization_not_longer (text : string) :
  String.length (trim_empty_lines text) <= String.length text.
Proof.
  destruct (kept_lines text) as [|x l] eqn:E.
  - rewrite trim_kept_lines, E. simpl. lia.
  - apply le_S_n. rewrite trim_kept_lines.
    rewrite length_join_newline by (rewrite E; discriminate).
    rewrite <- (join_split nl text) at 2. fold NL.
    rewrite length_join_newline by apply split_not_nil.
    apply list_sum_filter_le.
Qed.

(** X14.  The text of a page is normalised: normalising it again gives
    it back, it does not end with a newline, and when it is not empty
    none of its lines is empty. *)
Theorem X14_page_text_has_no_empty_line (self : ReadTheDocsLoader)
    (soup : PageElement) :
  let text := _clean_data_soup self soup in
  trim_empty_lines text = text /\
  ends_with nl text = false /\
  (text <> "" -> Forall (fun line => line <> "") (split nl text)).
Proof.
  cbv zeta. unfold _clean_data_soup.
  generalize (match locate_main self soup with
              | Some el =>
                  if negb (exclude_index_pages self
                           && Qle_bool (1 # 2) (_get_link_ratio el))
                  then _get_clean_text el else ""
              | None => "" end).
  intros raw. split; [|split].
  - now rewrite (trim_kept_lines (trim_empty_lines raw)), kept_lines_trim.
  - unfold trim_empty_lines, NL.
    apply ends_with_join;
      [apply kept_lines_sep_free | apply kept_lines_not_empty].
  - intros Hne. rewrite split_trim_empty_lines.
    + apply kept_lines_not_empty.
    + intros Hnil. apply Hne. unfold trim_empty_lines. now rewrite Hnil.
Qed.

Lemma X14_page_text_has_no_empty_line_witness :
  Forall (fun line => line <> "")
    (split nl (_clean_data_soup (example_loader None default_patterns false)
                 (page_of scripted_main))).
Proof.
  apply (X14_page_text_has_no_empty_line
           (example_loader None default_patterns false)
           (page_of scripted_main)).
  vm_compute. discriminate.
Defined.

(** ** More on the extractor *)

Lemma transparent_spec (name : string) :
  transparent name = true ->
  in_list name elements_to_skip = false /\
  in_list name newline_elements = false /\ name <> "br".
Proof.
  unfold transparent. intros Ht.
  apply andb_true_iff in Ht as [Ht Hb].
  apply andb_true_iff in Ht as [Hs Hbr].
  apply negb_true_iff in Hs, Hb, Hbr.
  repeat split; [exact Hs | exact Hb | now apply String.eqb_neq].
Qed.

Lemma join_empty_flat_map {A} (f : A -> list string) (l : list A) :
  join "" (flat_map f l) = join "" (map (fun x => join "" (f x)) l).
Proof.
  induction l as [|x l IH]; [reflexivity|].
  simpl flat_map. simpl map.
  now rewrite join_empty_app, join_empty_cons, IH.
Qed.

Lemma own_string_forest (children : list PageElement) :
  flat_map own_string (forest children) = flat_map text_nodes children.
Proof.
  induction children as [|c cs IH]; [reflexivity|].
  rewrite flat_map_forest_cons, IH. simpl flat_map. unfold text_nodes.
  now rewrite <- app_assoc.
Qed.

Lemma own_string_main_content (l : list PageElement) :
  forallb
    (fun d => match d with
              | SpecialString cls _ => bool_decide (cls = CData)
              | Tag _ _ _ | NavigableString _ | Comment _ => true
              end) l = true ->
  flat_map own_string l = flat_map (string_of_type MainContent) l.
Proof.
  induction l as [|d l IH]; [reflexivity|]. simpl.
  intros Hall. apply andb_true_iff in Hall as [Hd Hl].
  rewrite (IH Hl). f_equal.
  destruct d as [n a cs|s|s|cls s]; try reflexivity.
  apply bool_decide_eq_true in Hd. now subst cls.
Qed.

Lemma map_ext_Forall {A B} (f g : A -> B) (l : list A) :
  Forall (fun x => f x = g x) l -> map f l = map g l.
Proof.
  induction 1 as [|x l Hx _ IH]; [reflexivity|]. simpl. now rewrite Hx, IH.
Qed.

(** X4.  Inline markup does not change the text: for an element made of
    transparent tags, strings and comments only, the extractor returns
    the strings of the element, in document order, concatenated as they
    are: every string that is not a comment, which are the strings bs4
    yields for the element when they are all plain strings or CDATA
    sections. *)
Theorem X4_inline_markup_is_transparent (el : PageElement)
    (Hinline : inline_only el = true) :
  _get_clean_text el = join "" (text_nodes el) /\
  (interesting_string_types el = MainContent ->
   main_content_only el = true ->
   _get_clean_text el = join "" (own_string el ++ strings el)).
Proof.
  assert (Htext : _get_clean_text el = join "" (text_nodes el)).
  { unfold _get_clean_text. revert Hinline.
    induction el as [name attrs children IH | s | s | cls s]
      using PageElement_ind;
      intros Hinline; [|reflexivity|reflexivity|reflexivity].
    simpl in Hinline. apply andb_true_iff in Hinline as [Ht Hcs].
    apply transparent_spec in Ht as (Hs & Hb & Hbr).
    rewrite (process_element_transparent _ _ _ Hs Hb Hbr).
    change (text_nodes (Tag name attrs children))
      with (flat_map own_string (forest children)).
    rewrite own_string_forest, join_empty_flat_map. f_equal.
    apply map_ext_Forall.
    rewrite forallb_forall in Hcs.
    rewrite List.Forall_forall in IH. apply List.Forall_forall.
    intros c Hc. apply IH; [exact Hc | now apply Hcs]. }
  split; [exact Htext|].
  intros Hmain Honly. rewrite Htext. unfold text_nodes.
  rewrite (main_content_strings _ Hmain). unfold main_strings.
  unfold main_content_only in Honly. simpl in Honly.
  apply andb_true_iff in Honly as [_ Hbelow].
  now rewrite (own_string_main_content _ Hbelow).
Qed.

Lemma X4_inline_markup_is_transparent_witness :
  _get_clean_text
    (Tag "span" ∅
       [ NavigableString "see ";
         Tag "a" {[ "href" := AttrStr "x" ]}
           [ Tag "code" ∅ [NavigableString "load"]; Comment "c" ];
         NavigableString " now" ])
  = "see load now".
Proof.
  refine (eq_trans (proj2 (X4_inline_markup_is_transparent _ _) _ _) _);
    vm_compute; reflexivity.
Defined.

(** X5.  The extractor never looks at attributes: removing every
    attribute of an element, at any depth, leaves its text as it is. *)
Theorem X5_attributes_do_not_matter (el : PageElement) :
  _get_clean_text (drop_attrs el) = _get_clean_text el.
Proof.
  unfold _get_clean_text.
  induction el as [name attrs children IH | s | s | cls s] using PageElement_ind;
    [|reflexivity|reflexivity|reflexivity].
  change (drop_attrs (Tag name attrs children))
    with (Tag name ∅ (map drop_attrs children)).
  rewrite !process_element_Tag, map_map.
  now rewrite (map_ext_Forall _ _ _ IH).
Qed.

Lemma kept_lines_blocks (lines : list string) (rest : string) :
  Forall (fun s => s <> "" /\ has_char nl s = false) lines ->
  kept_lines (join "" (map (fun s => s +:+ NL) lines) +:+ rest)
  = lines ++ kept_lines rest.
Proof.
  induction 1 as [|s l [Hne Hfree] _ IH]; [reflexivity|].
  simpl map. rewrite join_empty_cons, !append_assoc, kept_lines_app, IH.
  now rewrite (kept_lines_line _ Hne Hfree).
Qed.

Lemma kept_lines_newlines (k : nat) (rest : string) :
  kept_lines (join "" (repeat NL k) +:+ rest) = kept_lines rest.
Proof.
  induction k as [|k IH]; [reflexivity|].
  simpl repeat. rewrite join_empty_cons, append_assoc, kept_lines_newline.
  exact IH.
Qed.

(** X6.  One block, one line: when the children of an element that is
    neither skipped nor a line break are block tags holding one string
    each, the strings being non-empty and free of newlines, the
    normalised text of the element is these strings, one per line. *)
Theorem X6_blocks_give_lines (outer inner : string)
    (attrs pattrs : gmap string AttrValue) (lines : list string)
    (Houter : in_list outer elements_to_skip = false)
    (Hbr : outer <> "br")
    (Hinner : in_list inner newline_elements = true)
    (Hlines : Forall (fun s => s <> "" /\ has_char nl s = false) lines) :
  trim_empty_lines
    (_get_clean_text
       (Tag outer attrs
          (map (fun s => Tag inner pattrs [NavigableString s]) lines)))
  = join NL lines.
Proof.
  unfold _get_clean_text. rewrite trim_kept_lines. f_equal.
  rewrite process_element_Tag, Houter.
  apply String.eqb_neq in Hbr. rewrite Hbr, map_map.
  assert (Hmap : map (fun s => process_element
                                 (Tag inner pattrs [NavigableString s])) lines
                 = map (fun s => s +:+ NL) lines).
  { apply map_ext. intros s. now rewrite process_element_block. }
  rewrite Hmap.
  destruct (in_list outer newline_elements).
  - rewrite (kept_lines_blocks _ _ Hlines). apply app_nil_r.
  - rewrite <- (append_empty_r (join "" _)).
    rewrite (kept_lines_blocks _ _ Hlines). apply app_nil_r.
Qed.

Lemma X6_blocks_give_lines_witness :
  trim_empty_lines
    (_get_clean_text
       (Tag "ul" ∅
          (map (fun s => Tag "li" ∅ [NavigableString s])
               ["one"; "two"; "three"])))
  = "one" +:+ NL +:+ "two" +:+ NL +:+ "three".
Proof.
  apply (X6_blocks_give_lines "ul" "li" ∅ ∅ ["one"; "two"; "three"]);
    [reflexivity | discriminate | reflexivity |].
  repeat constructor; discriminate.
Defined.

(** X7.  Line breaks separate and leave no empty line: in a block tag
    holding a string, one or more [br] tags and a second string, the
    strings being non-empty and free of newlines, the normalised text is
    the two strings on two lines, however many [br] tags there are. *)
Theorem X7_line_breaks_separate (block : string)
    (attrs battrs : gmap string AttrValue) (bchildren : list PageElement)
    (k : nat) (s1 s2 : string)
    (Hblock : in_list block newline_elements = true)
    (Hk : 0 < k)
    (H1 : s1 <> "" /\ has_char nl s1 = false)
    (H2 : s2 <> "" /\ has_char nl s2 = false) :
  trim_empty_lines
    (_get_clean_text
       (Tag block attrs
          (NavigableString s1
           :: repeat (Tag "br" battrs bchildren) k
           ++ [NavigableString s2])))
  = s1 +:+ NL +:+ s2.
Proof.
  unfold _get_clean_text. rewrite trim_kept_lines.
  change (s1 +:+ NL +:+ s2) with (join NL [s1; s2]). f_equal.
  rewrite (process_element_block _ _ _ Hblock).
  simpl map. rewrite map_app, map_repeat. simpl map.
  change (process_element (Tag "br" battrs bchildren)) with NL.
  rewrite join_empty_cons, join_empty_app.
  change (join "" [s2]) with s2.
  destruct k as [|k]; [lia|]. simpl repeat.
  rewrite join_empty_cons, !append_assoc.
  rewrite kept_lines_app, kept_lines_newlines.
  change (s2 +:+ NL) with (s2 +:+ NL +:+ "").
  rewrite kept_lines_app.
  destruct H1 as [Hne1 Hf1]. destruct H2 as [Hne2 Hf2].
  now rewrite (kept_lines_line _ Hne1 Hf1), (kept_lines_line _ Hne2 Hf2).
Qed.

Lemma X7_line_breaks_separate_witness :
  trim_empty_lines
    (_get_clean_text
       (Tag "p" ∅
          [ NavigableString "first"; Tag "br" ∅ []; Tag "br" ∅ [];
            NavigableString "second" ]))
  = "first" +:+ NL +:+ "second".
Proof.
  apply (X7_line_breaks_separate "p" ∅ ∅ [] 2 "first" "second");
    [reflexivity | lia | split; [discriminate | reflexivity]
    | split; [discriminate | reflexivity]].
Defined.

(** X3.  The skip test applies to the main element itself: when the
    located element is a skipped tag, which only a custom selector can
    bring about, the page's text is empty. *)
Theorem X3_skipped_main_element_gives_no_text (self : ReadTheDocsLoader)
    (soup : PageElement) (name : string) (attrs : gmap string AttrValue)
    (children : list PageElement)
    (Hloc : locate_main self soup = Some (Tag name attrs children))
    (Hskip : in_list name elements_to_skip = true) :
  _clean_data_soup self soup = "" /\
  ~ In name (map fst default_html_tags).
Proof.
  split.
  - unfold _clean_data_soup, _get_clean_text. rewrite Hloc.
    rewrite (process_element_skip _ _ _ Hskip).
    now destruct (negb _).
  - intros Hin. apply in_list_In in Hskip.
    destruct Hin as [<- | [<- | []]];
      apply in_list_In in Hskip; discriminate Hskip.
Qed.

Lemma X3_skipped_main_element_gives_no_text_witness :
  _clean_data_soup (example_loader (Some ("form", ∅)) [] false)
    (page_of (Tag "form" ∅ [Tag "p" ∅ [NavigableString "Name"]])) = "".
Proof.
  refine (proj1 (X3_skipped_main_element_gives_no_text
            (example_loader (Some ("form", ∅)) [] false)
            (page_of (Tag "form" ∅ [Tag "p" ∅ [NavigableString "Name"]]))
            "form" ∅ [Tag "p" ∅ [NavigableString "Name"]] _ _)).
  - vm_compute. reflexivity.
  - reflexivity.
Defined.

(** ** More on the locator *)

(** X1.  What the locator returns is an element of the page that
    matches the first selector in force that matches anything: a
    descendant of the parsed document, a tag named as that selector
    asks, whose attributes match every pair the selector requires (a
    token of a multi-valued attribute is enough); no descendant before
    it matches that selector, and no descendant at all matches a
    selector of higher priority. *)
Theorem X1_located_element_matches_a_selector (self : ReadTheDocsLoader)
    (soup el : PageElement) (Hloc : locate_main self soup = Some el) :
  exists earlier tag attrs later before after actual children,
    selector_priority (custom_html_tag self)
    = earlier ++ (tag, attrs) :: later /\
    descendants soup = before ++ el :: after /\
    el = Tag tag actual children /\
    (forall k v, attrs !! k = Some v -> ValueMatches (actual !! k) v) /\
    Forall (fun d => matches_tag tag attrs d = false) before /\
    Forall (fun sel =>
              Forall (fun d => matches_tag (fst sel) (snd sel) d = false)
                     (descendants soup)) earlier.
Proof.
  rewrite locate_main_priority in Hloc.
  apply first_match_Some in Hloc
    as (earlier & [tag attrs] & later & Hsels & Hfind & Hearlier).
  simpl in Hfind. apply head_filter_Some in Hfind
    as (before & after & Hdesc & Hmatch & Hbefore).
  apply matches_tag_spec in Hmatch as (actual & children & -> & Hattrs).
  exists earlier, tag, attrs, later, before, after, actual, children.
  repeat split; try assumption.
  apply List.Forall_forall. intros sel Hsel.
  rewrite List.Forall_forall in Hearlier.
  apply head_filter_None. now apply Hearlier.
Qed.

Lemma X1_located_element_matches_a_selector_witness :
  exists before after,
    descendants three_mains
    = before
      ++ Tag "section" {[ "class" := AttrList ["main"; "wide"] ]}
           [NavigableString "section"] :: after.
Proof.
  destruct (X1_located_element_matches_a_selector
              (example_loader
                 (Some ("section", {[ "class" := "main" ]})) [] false)
              three_mains
              (Tag "section" {[ "class" := AttrList ["main"; "wide"] ]}
                 [NavigableString "section"]))
    as (_ & _ & _ & _ & before & after & _ & _ & _ & Hdesc & _).
  - vm_compute. reflexivity.
  - now exists before, after.
Defined.

(** X2.  A custom selector that matches nothing changes nothing: the
    page is treated as by a loader without custom selector. *)
Theorem X2_unmatched_custom_selector_falls_back
    (self self' : ReadTheDocsLoader) (soup : PageElement)
    (tag : string) (attrs : gmap string string)
    (Hcustom : custom_html_tag self = Some (tag, attrs))
    (Hnone : find tag attrs soup = None)
    (Hdefault : custom_html_tag self' = None)
    (Hflag : exclude_index_pages self' = exclude_index_pages self) :
  locate_main self soup = locate_main self' soup /\
  _clean_data_soup self soup = _clean_data_soup self' soup.
Proof.
  assert (Hloc : locate_main self soup = locate_main self' soup).
  { rewrite !locate_main_priority, Hcustom, Hdefault. simpl.
    now rewrite Hnone. }
  split; [exact Hloc|].
  unfold _clean_data_soup. now rewrite Hloc, Hflag.
Qed.

Lemma X2_unmatched_custom_selector_falls_back_witness :
  _clean_data_soup
    (example_loader (Some ("section", {[ "class" := "main" ]}))
       default_patterns false)
    (page_of hello_world_main)
  = _clean_data_soup (example_loader None default_patterns false)
      (page_of hello_world_main).
Proof.
  refine (proj2 (X2_unmatched_custom_selector_falls_back
            (example_loader (Some ("section", {[ "class" := "main" ]}))
               default_patterns false)
            (example_loader None default_patterns false)
            (page_of hello_world_main)
            "section" {[ "class" := "main" ]} _ _ _ _));
    reflexivity.
Defined.

(** ** More on the index-page filter *)

Lemma half_le_quotient (a b : nat) :
  0 < b ->
  Qle_bool (1 # 2) (inject_Z (Z.of_nat a) / inject_Z (Z.of_nat b))
  = Nat.leb b (2 * a).
Proof.
  intros Hb. destruct b as [|n]; [lia|].
  apply eq_true_iff_eq. rewrite Qle_bool_iff, Nat.leb_le.
  unfold Qle, Qdiv, Qmult, Qinv. simpl Qnum. simpl Qden.
  change (1 * Pos.of_succ_nat n)%positive with (Pos.of_succ_nat n).
  rewrite Zpos_P_of_succ_nat. lia.
Qed.

Lemma half_le_link_ratio (el : PageElement) :
  Qle_bool (1 # 2) (_get_link_ratio el)
  = Nat.ltb 0 (total_length el)
    && Nat.leb (total_length el) (2 * link_length el).
Proof.
  unfold _get_link_ratio. fold (total_length el). fold (link_length el).
  destruct (total_length el) as [|n] eqn:E; [reflexivity|].
  change (Nat.eqb (S n) 0) with false. cbv iota.
  now rewrite half_le_quotient by lia.
Qed.

(** X8.  The threshold in whole numbers: with the filter on, a page
    whose main element was located is rejected exactly when the
    stripped text of the element is not empty and is at most twice as
    long, in characters, as the stripped text under its anchors. *)
Theorem X8_rejection_threshold (self : ReadTheDocsLoader)
    (soup el : PageElement)
    (Hloc : locate_main self soup = Some el)
    (Hon : exclude_index_pages self = true) :
  _clean_data_soup self soup
  = if Nat.ltb 0 (total_length el)
       && Nat.leb (total_length el) (2 * link_length el)
    then ""
    else trim_empty_lines (_get_clean_text el).
Proof.
  unfold _clean_data_soup. rewrite Hloc, Hon, half_le_link_ratio.
  now destruct (_ && _).
Qed.

Lemma X8_rejection_threshold_witness :
  _clean_data_soup (example_loader None default_patterns true)
    (page_of (Tag "div" {[ "role" := AttrStr "main" ]}
                [ Tag "a" {[ "href" := AttrStr "x" ]} [NavigableString "ab"];
                  NavigableString "cd" ]))
  = "".
Proof.
  refine (eq_trans (X8_rejection_threshold
            (example_loader None default_patterns true)
            (page_of (Tag "div" {[ "role" := AttrStr "main" ]}
                        [ Tag "a" {[ "href" := AttrStr "x" ]} [NavigableString "ab"];
                          NavigableString "cd" ]))
            (Tag "div" {[ "role" := AttrStr "main" ]}
               [ Tag "a" {[ "href" := AttrStr "x" ]} [NavigableString "ab"];
                 NavigableString "cd" ]) _ _) _).
  - vm_compute. reflexivity.
  - reflexivity.
  - vm_compute. reflexivity.
Defined.

(** X9.  A main element without anchors is never rejected: its link
    ratio is 0 and the page's text is the normalised text of the
    element, with the filter on or off. *)
Theorem X9_no_anchor_no_rejection (self : ReadTheDocsLoader)
    (soup el : PageElement)
    (Hloc : locate_main self soup = Some el)
    (Hnone : find_all "a" el = []) :
  (_get_link_ratio el == 0)%Q /\
  _clean_data_soup self soup = trim_empty_lines (_get_clean_text el).
Proof.
  assert (Hlen : link_length el = 0)
    by (unfold link_length; now rewrite Hnone).
  assert (Hkeep : Qle_bool (1 # 2) (_get_link_ratio el) = false).
  { rewrite half_le_link_ratio, Hlen.
    destruct (total_length el); reflexivity. }
  split.
  - unfold _get_link_ratio. fold (total_length el). fold (link_length el).
    rewrite Hlen. destruct (Nat.eqb (total_length el) 0); reflexivity.
  - unfold _clean_data_soup. rewrite Hloc, Hkeep, andb_false_r.
    reflexivity.
Qed.

Lemma X9_no_anchor_no_rejection_witness :
  _clean_data_soup (example_loader None default_patterns true)
    (page_of hello_world_main)
  = trim_empty_lines (_get_clean_text hello_world_main).
Proof.
  refine (proj2 (X9_no_anchor_no_rejection
            (example_loader None default_patterns true)
            (page_of hello_world_main) hello_world_main _ _)).
  - vm_compute. reflexivity.
  - vm_compute. reflexivity.
Defined.

(** X10.  Turning the filter on only ever blanks a page: for two
    loaders with the same custom selector, one with the filter off, the
    text the other gives for a page is either empty or the same. *)
Theorem X10_filter_only_blanks (self self' : ReadTheDocsLoader)
    (soup : PageElement)
    (Hcustom : custom_html_tag self' = custom_html_tag self)
    (Hoff : exclude_index_pages self' = false) :
  _clean_data_soup self soup = "" \/
  _clean_data_soup self soup = _clean_data_soup self' soup.
Proof.
  unfold _clean_data_soup, locate_main. rewrite Hcustom, Hoff.
  destruct (search_tags _ _ _) as [el|]; [|now left].
  destruct (exclude_index_pages self && _); [now left | now right].
Qed.

Lemma X10_filter_only_blanks_witness :
  _clean_data_soup (example_loader None default_patterns true)
    (page_of all_text_main) = "" \/
  _clean_data_soup (example_loader None default_patterns true)
    (page_of all_text_main)
  = _clean_data_soup (example_loader None default_patterns false)
      (page_of all_text_main).
Proof.
  apply (X10_filter_only_blanks
           (example_loader None default_patterns true)
           (example_loader None default_patterns false));
    reflexivity.
Defined.

(** ** More on loading *)

Section LoadTrace.

Context `{Collaborators}.

Lemma bind_ext {A B} (m : IO A) (k1 k2 : A -> IO B) (log : list string) :
  (forall a log', k1 a log' = k2 a log') -> bind m k1 log = bind m k2 log.
Proof.
  intros Hk. unfold bind. destruct (m log) as [[e|a] log'];
    [reflexivity | apply Hk].
Qed.

Lemma bind_assoc {A B C} (m : IO A) (k : A -> IO B) (k' : B -> IO C)
    (log : list string) :
  bind (bind m k) k' log = bind m (fun a => bind (k a) k') log.
Proof. unfold bind. now destruct (m log) as [[e|a] log']. Qed.

Lemma for_each_app {A B} (l1 l2 : list A) (body : B -> A -> IO B) (acc : B)
    (log : list string) :
  for_each (l1 ++ l2) body acc log
  = bind (for_each l1 body acc) (fun acc' => for_each l2 body acc') log.
Proof.
  revert acc log. induction l1 as [|x l1 IH]; intros acc log; [reflexivity|].
  change ((x :: l1) ++ l2) with (x :: (l1 ++ l2)).
  rewrite !for_each_cons, bind_assoc. apply bind_ext. exact IH.
Qed.

Lemma for_each_skip_dirs (self : ReadTheDocsLoader) (files : list string)
    (docs : list Document) (log : list string) :
  for_each files (load_file self) docs log
  = for_each (List.filter (fun p => negb (is_dir p)) files)
      (load_file self) docs log.
Proof.
  revert docs log. induction files as [|p files IH]; intros docs log;
    [reflexivity|].
  simpl List.filter. destruct (is_dir p) eqn:Hd; simpl negb; cbv iota.
  - rewrite for_each_cons.
    rewrite (bind_ret (load_file self docs p) _ docs log log)
      by (now apply load_file_dir).
    apply IH.
  - rewrite !for_each_cons. apply bind_ext. exact IH.
Qed.

(** The two loops of [load] walk the matched files of all the patterns
    as one list. *)
Lemma load_flat (self : ReadTheDocsLoader) (log : list string) :
  load self log
  = for_each (flat_map (matched_files self) (patterns self))
      (load_file self) [] log.
Proof.
  unfold load. generalize (@nil Document) as docs. revert log.
  induction (patterns self) as [|pat pats IH]; intros log docs;
    [reflexivity|].
  rewrite for_each_cons. simpl flat_map. rewrite for_each_app.
  unfold bind. rewrite for_each_skip_dirs. fold (matched_files self pat).
  destruct (for_each (matched_files self pat) (load_file self) docs log)
    as [[e|docs'] log']; [reflexivity | apply IH].
Qed.

Lemma matched_files_not_dir (self : ReadTheDocsLoader) (pats : list string) :
  Forall (fun p => is_dir p = false) (flat_map (matched_files self) pats).
Proof.
  apply List.Forall_forall. intros p Hin.
  apply in_flat_map in Hin as (pat & _ & Hin).
  apply filter_In in Hin as [_ Hd]. now apply negb_true_iff in Hd.
Qed.

Lemma load_file_fails (self : ReadTheDocsLoader) (docs : list Document)
    (p : string) (log : list string) :
  is_dir p = false ->
  document_of self p = None ->
  load_file self docs p log = (inl (load_error self p), log ++ [p]).
Proof.
  intros Hd Hdoc. unfold load_file, document_of, load_error in *.
  rewrite Hd. unfold bind, open_and_read, _clean_data.
  destruct (read_text p (encoding self) (errors self)) as [data|];
    [|reflexivity].
  destruct (BeautifulSoup data (bs_kwargs self)) as [soup|];
    [discriminate | reflexivity].
Qed.

Lemma for_each_load_fails (self : ReadTheDocsLoader)
    (before after : list string) (p : string) :
  forall (docs : list Document) (log : list string),
  Forall (fun q => is_dir q = false) (before ++ [p]) ->
  Forall (fun q => is_Some (document_of self q)) before ->
  document_of self p = None ->
  for_each (before ++ p :: after) (load_file self) docs log
  = (inl (load_error self p), log ++ before ++ [p]).
Proof.
  induction before as [|q before IH]; intros docs log Hnd Hok Hbad.
  - simpl app. rewrite for_each_cons. inversion Hnd; subst.
    apply bind_raise. now apply load_file_fails.
  - change ((q :: before) ++ p :: after) with (q :: (before ++ p :: after)).
    inversion Hnd as [|? ? Hq Hnd']; subst.
    inversion Hok as [|? ? [d Hd] Hok']; subst.
    rewrite for_each_cons.
    rewrite (bind_ret (load_file self docs q) _ (docs ++ [d]) log
               (log ++ [q])) by (now apply load_file_ok).
    rewrite (IH _ _ Hnd' Hok' Hbad), <- !app_assoc. reflexivity.
Qed.

(** Whatever happens, the files opened are a prefix of the list. *)
Lemma for_each_load_trace (self : ReadTheDocsLoader) (files : list string) :
  forall (docs : list Document) (log : list string),
  Forall (fun q => is_dir q = false) files ->
  exists opened rest,
    files = opened ++ rest /\
    snd (for_each files (load_file self) docs log) = log ++ opened /\
    match fst (for_each files (load_file self) docs log) with
    | inr docs' =>
        rest = [] /\ length docs' = length docs + length opened
    | inl e =>
        exists before p,
          opened = before ++ [p] /\ e = load_error self p /\
          document_of self p = None
    end.
Proof.
  induction files as [|p files IH]; intros docs log Hnd.
  - exists [], []. simpl. rewrite app_nil_r. repeat split. lia.
  - inversion Hnd as [|? ? Hp Hnd']; subst. rewrite for_each_cons.
    destruct (document_of self p) as [d|] eqn:Hdoc.
    + rewrite (bind_ret (load_file self docs p) _ (docs ++ [d]) log
                 (log ++ [p])) by (now apply load_file_ok).
      destruct (IH (docs ++ [d]) (log ++ [p]) Hnd')
        as (opened & rest & Hfiles & Hlog & Hres).
      exists (p :: opened), rest. split; [now rewrite Hfiles|].
      split; [now rewrite Hlog, <- app_assoc|].
      destruct (fst (for_each files (load_file self) (docs ++ [d])
                       (log ++ [p]))) as [e|docs'].
      * destruct Hres as (before & q & -> & He & Hq).
        exists (p :: before), q. now repeat split.
      * destruct Hres as [-> Hlen]. split; [reflexivity|].
        rewrite Hlen, length_app. simpl. lia.
    + rewrite (bind_raise (load_file self docs p) _ (load_error self p) log
                 (log ++ [p])) by (now apply load_file_fails).
      exists [p], files. simpl. repeat split.
      exists [], p. now repeat split.
Qed.

End LoadTrace.

(** X16.  [load] fails fast: at the first matched file that cannot be
    read or parsed it raises, the read error for a file that cannot be
    read and the parser's error otherwise; no document is returned, and
    the files after it are not opened. *)
Theorem X16_load_fails_at_first_bad_file `{Collaborators}
    (self : ReadTheDocsLoader) (log before after : list string) (p : string)
    (Hfiles : flat_map (matched_files self) (patterns self)
              = before ++ p :: after)
    (Hok : Forall (fun q => is_Some (document_of self q)) before)
    (Hbad : document_of self p = None) :
  load self log = (inl (load_error self p), log ++ before ++ [p]).
Proof.
  rewrite load_flat, Hfiles. apply for_each_load_fails; [|exact Hok|exact Hbad].
  pose proof (matched_files_not_dir self (patterns self)) as Hnd.
  rewrite Hfiles in Hnd.
  replace (before ++ p :: after) with ((before ++ [p]) ++ after) in Hnd
    by (now rewrite <- app_assoc).
  now apply Forall_app in Hnd as [Hnd _].
Qed.

Lemma X16_load_fails_at_first_bad_file_witness :
  @load broken_world (example_loader None ["*.html"] false) []
  = (inl (ReadError "docs/b.html"), ["docs/a.html"; "docs/b.html"]).
Proof.
  apply (@X16_load_fails_at_first_bad_file broken_world
           (example_loader None ["*.html"] false) []
           ["docs/a.html"] ["docs/c.html"] "docs/b.html").
  - reflexivity.
  - repeat constructor. vm_compute. eexists. reflexivity.
  - reflexivity.
Defined.

(** X17.  Whether [load] returns or raises, the files it opens are the
    matched files, in order, up to a point: directories are never
    opened, no file is skipped, and nothing else is opened.  When it
    returns, every matched file was opened and there are as many
    documents; when it raises, the error is that of the last file
    opened. *)
Theorem X17_load_opens_a_prefix_of_the_matched_files `{Collaborators}
    (self : ReadTheDocsLoader) (log : list string) :
  exists opened rest,
    flat_map (matched_files self) (patterns self) = opened ++ rest /\
    snd (load self log) = log ++ opened /\
    Forall (fun p => is_dir p = false) opened /\
    match fst (load self log) with
    | inr docs => rest = [] /\ length docs = length opened
    | inl e =>
        exists before p,
          opened = before ++ [p] /\ e = load_error self p /\
          document_of self p = None
    end.
Proof.
  pose proof (matched_files_not_dir self (patterns self)) as Hnd.
  destruct (for_each_load_trace self _ [] log Hnd)
    as (opened & rest & Hfiles & Hlog & Hres).
  exists opened, rest. rewrite load_flat.
  split; [exact Hfiles|]. split; [exact Hlog|]. split; [|exact Hres].
  rewrite Hfiles in Hnd. now apply Forall_app in Hnd as [Hnd _].
Qed.

(** X18.  When no pattern matches a file that is not a directory,
    [load] returns the empty list and opens nothing. *)
Theorem X18_load_nothing_matched `{Collaborators}
    (self : ReadTheDocsLoader) (log : list string)
    (Hnone : flat_map (matched_files self) (patterns self) = []) :
  load self log = (inr [], log).
Proof. rewrite load_flat, Hnone. reflexivity. Qed.

Lemma X18_load_nothing_matched_witness :
  @load example_world (example_loader None ["*.rst"; "old*"] false) []
  = (inr [], []).
Proof.
  apply (@X18_load_nothing_matched example_world
           (example_loader None ["*.rst"; "old*"] false) []).
  reflexivity.
Defined.

(** ** Whitespace and the link ratio *)

Lemma lstrip_head (s : string) (c : ascii) (r : string) :
  lstrip s = String c r -> isspace c = false.
Proof.
  induction s as [|d s IH]; simpl; [discriminate|].
  destruct (isspace d) eqn:Ed; [exact IH|]. now intros [= <- _].
Qed.

Lemma rstrip_idempotent (s : string) : rstrip (rstrip s) = rstrip s.
Proof.
  induction s as [|c s IH]; [reflexivity|]. simpl.
  destruct (rstrip s) as [|d r] eqn:Er.
  - destruct (isspace c) eqn:Ec; [reflexivity|]. simpl. now rewrite Ec.
  - change (rstrip (String c (String d r)))
      with (match rstrip (String d r) with
            | EmptyString => if isspace c then "" else String c ""
            | r' => String c r'
            end).
    now rewrite IH.
Qed.

Lemma lstrip_rstrip (s : string) :
  (forall c r, s = String c r -> isspace c = false) ->
  lstrip (rstrip s) = rstrip s.
Proof.
  destruct s as [|c s]; [reflexivity|]. intros Hhead.
  specialize (Hhead c s eq_refl). simpl.
  destruct (rstrip s); rewrite ?Hhead; simpl; now rewrite Hhead.
Qed.

Lemma strip_idempotent (s : string) : strip (strip s) = strip s.
Proof.
  unfold strip. rewrite lstrip_rstrip; [apply rstrip_idempotent|].
  intros c r. apply lstrip_head.
Qed.

Lemma forest_strip_strings (children : list PageElement) :
  Forall (fun c => descendants (strip_strings c)
                   = map strip_strings (descendants c)) children ->
  forest (map strip_strings children) = map strip_strings (forest children).
Proof.
  induction 1 as [|c cs Hc _ IH]; [reflexivity|].
  simpl map. rewrite !forest_cons, IH, Hc. simpl map. now rewrite map_app.
Qed.

Lemma descendants_strip_strings (el : PageElement) :
  descendants (strip_strings el) = map strip_strings (descendants el).
Proof.
  induction el as [name attrs children IH | s | s | cls s] using PageElement_ind;
    [|reflexivity|reflexivity|reflexivity].
  now apply forest_strip_strings.
Qed.

Lemma matches_tag_strip_strings (name : string) (attrs : gmap string string)
    (el : PageElement) :
  matches_tag name attrs (strip_strings el) = matches_tag name attrs el.
Proof. now destruct el. Qed.

Lemma filter_map_comm {A} (f : A -> bool) (g : A -> A) (l : list A) :
  (forall x, f (g x) = f x) ->
  List.filter f (map g l) = map g (List.filter f l).
Proof.
  intros Hfg. induction l as [|x l IH]; [reflexivity|]. simpl.
  rewrite Hfg, IH. now destruct (f x).
Qed.

Lemma string_of_type_strip_strings (types : StringTypes) (d : PageElement) :
  string_of_type types (strip_strings d)
  = map strip (string_of_type types d).
Proof.
  destruct d as [n a cs|s|s|cls s], types as [|cls']; try reflexivity.
  - destruct cls; reflexivity.
  - destruct cls; simpl; destruct (bool_decide _); reflexivity.
Qed.

Lemma interesting_string_types_strip_strings (el : PageElement) :
  interesting_string_types (strip_strings el) = interesting_string_types el.
Proof. now destruct el. Qed.

Lemma strings_strip_strings (el : PageElement) :
  strings (strip_strings el) = map strip (strings el).
Proof.
  unfold strings.
  rewrite descendants_strip_strings, interesting_string_types_strip_strings.
  induction (descendants el) as [|d l IH]; [reflexivity|].
  simpl. now rewrite IH, map_app, string_of_type_strip_strings.
Qed.

Lemma stripped_length_map_strip (l : list string) :
  stripped_length (map strip l) = stripped_length l.
Proof.
  unfold stripped_length. rewrite map_map. f_equal.
  apply map_ext. intros s. now rewrite strip_idempotent.
Qed.

Lemma total_length_strip_strings (el : PageElement) :
  total_length (strip_strings el) = total_length el.
Proof.
  unfold total_length, stripped_strings.
  now rewrite !length_total_text, strings_strip_strings,
    stripped_length_map_strip.
Qed.

Lemma link_length_strip_strings (el : PageElement) :
  link_length (strip_strings el) = link_length el.
Proof.
  unfold link_length, find_all. rewrite !length_link_text.
  rewrite descendants_strip_strings.
  rewrite filter_map_comm by (intros d; apply matches_tag_strip_strings).
  assert (Hflat : forall l,
            flat_map strings (map strip_strings l)
            = map strip (flat_map strings l)).
  { induction l as [|d l IH]; [reflexivity|]. simpl.
    now rewrite IH, strings_strip_strings, map_app. }
  now rewrite Hflat, stripped_length_map_strip.
Qed.

(** X15.  Whitespace around text does not count: stripping every string
    of an element leaves its link ratio, and so the decision of the
    index-page filter, as it is. *)
Theorem X15_link_ratio_ignores_outer_whitespace (el : PageElement) :
  _get_link_ratio (strip_strings el) = _get_link_ratio el /\
  total_length (strip_strings el) = total_length el /\
  link_length (strip_strings el) = link_length el.
Proof.
  split; [|split;
            [apply total_length_strip_strings
            | apply link_length_strip_strings]].
  unfold _get_link_ratio.
  fold (total_length el). fold (link_length el).
  fold (total_length (strip_strings el)).
  fold (link_length (strip_strings el)).
  now rewrite total_length_strip_strings, link_length_strip_strings.
Qed.
